(** * Unreal-SignalR: the negotiate handshake of [FConnection]

    A shallow embedding of [Source/SignalR/Private/Connection.cpp].  The
    [FConnection] object is a record, each member function is a function
    that threads the object and appends to a trace of the calls it makes
    on the engine (HTTP module, WebSockets module, log).  The engine's
    own types ([FString], [TMap], [TSharedPtr], [FJsonObject]) are not
    part of the repository; the parts of them the file relies on are
    modelled below and, where their behaviour is not fixed by the file
    (string comparison, the JSON reader, the WebSockets module), taken
    as parameters. *)

From Stdlib Require Import ZArith String Ascii List Bool Floats.
From stdpp Require Import base option gmap strings list fin_maps.

Open Scope string_scope.
Open Scope list_scope.

(** ** Engine types *)

(** [TSharedPtr<T>]: either null or a valid object; [IsValid] tests it. *)
Abbreviation TSharedPtr := option (only parsing).

Definition IsValid {T : Type} (Ptr : TSharedPtr T) : bool :=
  match Ptr with Some _ => true | None => false end.

(** Identity of a socket object owned by the WebSockets module. *)
Definition IWebSocket : Type := nat.

(** [ELogVerbosity] levels used by the file. *)
Inductive ELogVerbosity : Type := Error | Warning.

(** Arguments substituted into a [UE_LOG] format string. *)
Inductive FLogArg : Type :=
| ArgInt (Value : Z)
| ArgString (Value : string).

(** The four signals of [IWebSocket], with their payloads. *)
Inductive FWebSocketSignal : Type :=
| SigConnected
| SigConnectionError (ErrString : string)
| SigClosed (StatusCode : Z) (Reason : string) (bWasClean : bool)
| SigMessage (MessageString : string).

(** The event a lambda is attached to. *)
Inductive EWebSocketEvent : Type :=
| EvConnected | EvConnectionError | EvClosed | EvMessage.

(** What [OnProcessRequestComplete] is bound to. *)
Inductive FHttpRequestCompleteDelegate : Type :=
| Unbound
| BoundTo_OnNegotiateResponse.

(** [IHttpRequest] as the file configures it. *)
Record FHttpRequest : Type := mkHttpRequest {
  Verb : string;
  URL : string;
  RequestHeaders : gmap string string;
  Payload : string;
  OnProcessRequestComplete : FHttpRequestCompleteDelegate
}.

(** [FHttpModule::Get().CreateRequest()]: a request with nothing set. *)
Definition CreateRequest : FHttpRequest :=
  {| Verb := ""; URL := ""; RequestHeaders := ∅; Payload := "";
     OnProcessRequestComplete := Unbound |}.

Definition SetVerb (R : FHttpRequest) (InVerb : string) : FHttpRequest :=
  {| Verb := InVerb; URL := URL R; RequestHeaders := RequestHeaders R;
     Payload := Payload R;
     OnProcessRequestComplete := OnProcessRequestComplete R |}.

Definition SetURL (R : FHttpRequest) (InURL : string) : FHttpRequest :=
  {| Verb := Verb R; URL := InURL; RequestHeaders := RequestHeaders R;
     Payload := Payload R;
     OnProcessRequestComplete := OnProcessRequestComplete R |}.

Definition BindRaw (R : FHttpRequest) (D : FHttpRequestCompleteDelegate)
  : FHttpRequest :=
  {| Verb := Verb R; URL := URL R; RequestHeaders := RequestHeaders R;
     Payload := Payload R; OnProcessRequestComplete := D |}.

(** [IHttpResponse]: what the handler reads from it. *)
Record FHttpResponse : Type := mkHttpResponse {
  GetResponseCode : Z;
  GetContentAsString : string
}.

(** ** The engine's JSON values

    [EJson] is the type tag of a value, [FJsonValue] the value.  Array
    elements and object fields are shared pointers, which the file tests
    with [IsValid] before use. *)
Inductive EJson : Type :=
| EJson_None | EJson_Null | EJson_String | EJson_Number | EJson_Boolean
| EJson_Array | EJson_Object.

#[global] Instance EJson_eq_dec : EqDecision EJson.
Proof. solve_decision. Defined.

#[local] Unset Elimination Schemes.
Inductive FJsonValue : Type :=
| FJsonValueNull
| FJsonValueString (Value : string)
| FJsonValueNumber (Value : float)
| FJsonValueBoolean (Value : bool)
| FJsonValueArray (Value : list (TSharedPtr FJsonValue))
| FJsonValueObject (Values : list (string * TSharedPtr FJsonValue)).
#[local] Set Elimination Schemes.

(** [FJsonObject]: its [Values] map, in the order the fields were
    added. *)
Definition FJsonObject : Type := list (string * TSharedPtr FJsonValue).

(** [FJsonValue::Type]. *)
Definition JsonType (v : FJsonValue) : EJson :=
  match v with
  | FJsonValueNull => EJson_Null
  | FJsonValueString _ => EJson_String
  | FJsonValueNumber _ => EJson_Number
  | FJsonValueBoolean _ => EJson_Boolean
  | FJsonValueArray _ => EJson_Array
  | FJsonValueObject _ => EJson_Object
  end.

(** [FJsonValue::AsString] on a string value.  The file calls it only
    behind a [Type == EJson::String] test; the conversions the engine
    applies to other types are not modelled. *)
Definition AsString (v : FJsonValue) : string :=
  match v with
  | FJsonValueString s => s
  | _ => ""
  end.

(** [FJsonValue::AsObject]; the engine's empty object for other types. *)
Definition AsObject (v : FJsonValue) : FJsonObject :=
  match v with
  | FJsonValueObject o => o
  | _ => []
  end.

(** [FJsonValue::AsArray]. *)
Definition AsArray (v : FJsonValue) : list (TSharedPtr FJsonValue) :=
  match v with
  | FJsonValueArray a => a
  | _ => []
  end.

(** ** Calls made on the engine *)

Inductive Effect : Type :=
| Log (Verbosity : ELogVerbosity) (Format : string) (Args : list FLogArg)
| ProcessRequest (Request : FHttpRequest)
| CreateWebSocketCall (Url Protocol : string)
                      (UpgradeHeaders : gmap string string)
| AddLambda (Socket : IWebSocket) (Event : EWebSocketEvent)
| SocketConnect (Socket : IWebSocket)
| SocketSend (Socket : IWebSocket) (Data : string)
| SocketClose (Socket : IWebSocket) (Code : Z) (Reason : string)
| Broadcast (Signal : FWebSocketSignal).

(** A log line is diagnostics; everything else reaches a collaborator. *)
Definition IsExternalCall (e : Effect) : bool :=
  match e with
  | Log _ _ _ => false
  | _ => true
  end.

Definition ExternalCalls (Trace : list Effect) : list Effect :=
  List.filter IsExternalCall Trace.

Definition IsCreateWebSocket (e : Effect) : bool :=
  match e with
  | CreateWebSocketCall _ _ _ => true
  | _ => false
  end.

(** Whether the trace asks the WebSockets module for a socket. *)
Definition ConstructsTransport (Trace : list Effect) : bool :=
  existsb IsCreateWebSocket Trace.

(** ** The [FConnection] object *)

Record FConnection : Type := mkConnection {
  Host : string;
  Headers : gmap string string;
  ConnectionId : string;
  Connection : TSharedPtr IWebSocket
}.

(** The constructor: [Host] and [Headers] from the arguments, the other
    members default-constructed. *)
Definition FConnection_new (InHost : string)
    (InHeaders : gmap string string) : FConnection :=
  {| Host := InHost; Headers := InHeaders; ConnectionId := "";
     Connection := None |}.

Definition SetConnectionId (Value : string) (this : FConnection)
  : FConnection :=
  {| Host := Host this; Headers := Headers this; ConnectionId := Value;
     Connection := Connection this |}.

Definition SetConnection (Value : TSharedPtr IWebSocket)
    (this : FConnection) : FConnection :=
  {| Host := Host this; Headers := Headers this;
     ConnectionId := ConnectionId this; Connection := Value |}.

(** ** Member functions as actions on the object

    An action reads and updates [this] and appends to the trace. *)
Definition Action (A : Type) : Type :=
  FConnection → A * FConnection * list Effect.

#[global] Instance Action_ret : MRet Action :=
  λ A x this, (x, this, []).

#[global] Instance Action_bind : MBind Action :=
  λ A B k m this,
    let '(a, this1, t1) := m this in
    let '(b, this2, t2) := k a this1 in
    (b, this2, t1 ++ t2).

Definition emit (e : Effect) : Action unit :=
  λ this, (tt, this, [e]).

Definition self : Action FConnection :=
  λ this, (this, this, []).

Definition assign (f : FConnection → FConnection) : Action unit :=
  λ this, (tt, f this, []).

(** State and trace left by a [void] member function. *)
Definition exec (m : Action unit) (this : FConnection)
  : FConnection * list Effect :=
  let '(_, this', t) := m this in (this', t).

(** [FConnection::IsConnected].  [SocketIsConnected] is what each socket
    answers to its own [IsConnected] at the time of the call. *)
Definition IsConnected (SocketIsConnected : IWebSocket → bool)
    (this : FConnection) : bool :=
  IsValid (Connection this) &&
  match Connection this with
  | Some Socket => SocketIsConnected Socket
  | None => false
  end.

(** [FConnection::Send]. *)
Definition Send (Data : string) : Action unit :=
  this ← self;
  match Connection this with
  | Some Socket => emit (SocketSend Socket Data)
  | None =>
      emit (Log Error "Cannot send data to non connected websocket." [])
  end.

(** [FConnection::Close]. *)
Definition Close (Code : Z) (Reason : string) : Action unit :=
  this ← self;
  match Connection this with
  | Some Socket => emit (SocketClose Socket Code Reason)
  | None => emit (Log Error "Cannot close non connected websocket." [])
  end.

(** [FConnection::Negotiate]. *)
Definition Negotiate : Action unit :=
  this ← self;
  let HttpRequest := CreateRequest in
  let HttpRequest := SetVerb HttpRequest "POST" in
  let HttpRequest := BindRaw HttpRequest BoundTo_OnNegotiateResponse in
  let HttpRequest :=
    SetURL HttpRequest
      ("http://" +:+ Host this +:+ "/negotiate?negotiateVersion=1") in
  emit (ProcessRequest HttpRequest).

(** [FConnection::Connect]. *)
Definition Connect : Action unit := Negotiate.

(** The bodies of the four lambdas [StartWebSocket] attaches to the
    socket: what the object does when the socket raises a signal. *)
Definition OnSocketSignal (Signal : FWebSocketSignal) : Action unit :=
  match Signal with
  | SigConnected => emit (Broadcast SigConnected)
  | SigConnectionError ErrString =>
      emit (Log Warning "Websocket err: %s" [ArgString ErrString]);;
      emit (Broadcast (SigConnectionError ErrString))
  | SigClosed StatusCode Reason bWasClean =>
      emit (Broadcast (SigClosed StatusCode Reason bWasClean))
  | SigMessage MessageString =>
      emit (Broadcast (SigMessage MessageString))
  end.

Section Handshake.

(** [FString]'s [operator==]; the keys of a [TMap<FString, _>] are
    compared with it as well. *)
Variable FStringEq : string → string → bool.

(** [FJsonSerializer::Deserialize] into an object, followed by the
    [IsValid] test on it: the object read from the text, if any. *)
Variable Deserialize : string → option FJsonObject.

(** [FWebSocketsModule::Get().CreateWebSocket]: the socket the module
    hands out for a url, a protocol and upgrade headers, or null. *)
Variable CreateWebSocket :
  string → string → gmap string string → TSharedPtr IWebSocket.

(** [TMap::Find] on the [Values] of an object. *)
Fixpoint Find (Values : FJsonObject) (FieldName : string)
  : option (TSharedPtr FJsonValue) :=
  match Values with
  | [] => None
  | (Key, Field) :: Rest =>
      if FStringEq Key FieldName then Some Field else Find Rest FieldName
  end.

(** [FJsonObject::HasField]: the field exists and its pointer is
    valid. *)
Definition HasField (Obj : FJsonObject) (FieldName : string) : bool :=
  match Find Obj FieldName with
  | Some (Some _) => true
  | _ => false
  end.

(** [FJsonObject::HasTypedField<JsonType>]. *)
Definition HasTypedField (Type_ : EJson) (Obj : FJsonObject)
    (FieldName : string) : bool :=
  match Find Obj FieldName with
  | Some (Some v) => bool_decide (JsonType v = Type_)
  | _ => false
  end.

(** [FJsonObject::GetStringField]; the empty string when the engine
    has no string to give. *)
Definition GetStringField (Obj : FJsonObject) (FieldName : string)
  : string :=
  match Find Obj FieldName with
  | Some (Some v) => AsString v
  | _ => ""
  end.

(** [FJsonObject::GetArrayField]. *)
Definition GetArrayField (Obj : FJsonObject) (FieldName : string)
  : list (TSharedPtr FJsonValue) :=
  match Find Obj FieldName with
  | Some (Some v) => AsArray v
  | _ => []
  end.

(** The inner loop of the compatibility check, over the
    [transferFormats] of one entry; [bIsCompatible] is the flag the
    loop may raise. *)
Definition ScanTransferFormats
    (Formats : list (TSharedPtr FJsonValue)) (bIsCompatible : bool)
  : bool :=
  fold_left
    (λ bIsCompatible TransportFormatData,
       match TransportFormatData with
       | Some Format =>
           if bool_decide (JsonType Format = EJson_String)
              && FStringEq (AsString Format) "Text"
           then true
           else bIsCompatible
       | None => bIsCompatible
       end)
    Formats bIsCompatible.

(** The outer loop, over the entries of [availableTransports]. *)
Definition ScanTransports (Transports : list (TSharedPtr FJsonValue))
    (bIsCompatible : bool) : bool :=
  fold_left
    (λ bIsCompatible TransportData,
       match TransportData with
       | Some Entry =>
           if bool_decide (JsonType Entry = EJson_Object) then
             let TransportObj := AsObject Entry in
             if HasTypedField EJson_String TransportObj "transport"
                && FStringEq (GetStringField TransportObj "transport")
                             "WebSockets"
                && HasTypedField EJson_Array TransportObj
                                 "transferFormats"
             then
               ScanTransferFormats
                 (GetArrayField TransportObj "transferFormats")
                 bIsCompatible
             else bIsCompatible
           else bIsCompatible
       | None => bIsCompatible
       end)
    Transports bIsCompatible.

(** [FConnection::StartWebSocket]. *)
Definition StartWebSocket : Action unit :=
  this ← self;
  emit (CreateWebSocketCall ("ws://" +:+ Host this) "" (Headers this));;
  assign (SetConnection
            (CreateWebSocket ("ws://" +:+ Host this) "" (Headers this)));;
  this ← self;
  match Connection this with
  | Some Socket =>
      emit (AddLambda Socket EvConnected);;
      emit (AddLambda Socket EvConnectionError);;
      emit (AddLambda Socket EvClosed);;
      emit (AddLambda Socket EvMessage);;
      emit (SocketConnect Socket)
  | None => emit (Log Error "Cannot start websocket." [])
  end.

(** [FConnection::OnNegotiateResponse] is one function in the source; it
    is written here as four definitions, innermost block first, each a
    contiguous run of its statements.

    Its last statements, reached once every check has passed: the two
    identifier fields, read one after the other, then
    [StartWebSocket]. *)
Definition StoreIdAndStart (JsonObject : FJsonObject) : Action unit :=
  (if HasTypedField EJson_String JsonObject "connectionId"
   then assign (SetConnectionId
                  (GetStringField JsonObject "connectionId"))
   else mret tt);;
  (if HasTypedField EJson_String JsonObject "connectionToken"
   then assign (SetConnectionId
                  (GetStringField JsonObject "connectionToken"))
   else mret tt);;
  StartWebSocket.

(** The statements from the [availableTransports] test to the end: the
    two loops run only on an array, and a flag still down after them
    logs and returns. *)
Definition CheckTransportsAndStart (JsonObject : FJsonObject)
  : Action unit :=
  if HasTypedField EJson_Array JsonObject "availableTransports" then
    let bIsCompatible :=
      ScanTransports (GetArrayField JsonObject "availableTransports")
                     false in
    if negb bIsCompatible then
      emit (Log Error "The server does not support WebSockets which is currently the only transport supported by this client." [])
    else StoreIdAndStart JsonObject
  else StoreIdAndStart JsonObject.

(** The statements that follow a successful [Deserialize]: the [error]
    branch, which is empty, and in its [else] the [ProtocolVersion] and
    [url] tests, each ending in [return]. *)
Definition OnNegotiateObject (JsonObject : FJsonObject) : Action unit :=
  if HasField JsonObject "error" then
    mret tt
  else if HasField JsonObject "ProtocolVersion" then
    emit (Log Error "Detected a connection attempt to an ASP.NET SignalR Server. This client only supports connecting to an ASP.NET Core SignalR Server. See https://aka.ms/signalr-core-differences for details." [])
  else if HasTypedField EJson_String JsonObject "url" then
    let RedirectionUrl := GetStringField JsonObject "url" in
    let AccessToken := GetStringField JsonObject "accessToken" in
    mret tt
  else CheckTransportsAndStart JsonObject.

(** [FConnection::OnNegotiateResponse] from its first statement.
    [InResponse] is dereferenced without a test: on a null response
    there is no defined outcome.  [InRequest] and
    [bConnectedSuccessfully] are not read. *)
Definition OnNegotiateResponse (InRequest : TSharedPtr FHttpRequest)
    (InResponse : TSharedPtr FHttpResponse)
    (bConnectedSuccessfully : bool) (this : FConnection)
  : option (FConnection * list Effect) :=
  match InResponse with
  | None => None
  | Some Response =>
      Some (exec
        (if negb (GetResponseCode Response =? 200)%Z then
           emit (Log Error "Negotiate failed with status code %d"
                     [ArgInt (GetResponseCode Response)])
         else
           match Deserialize (GetContentAsString Response) with
           | Some JsonObject => OnNegotiateObject JsonObject
           | None =>
               emit (Log Error "Cannot parse negotiate response: %s"
                         [ArgString (GetContentAsString Response)])
           end)
        this)
  end.

(** ** Notions used in the statements *)

(** A [transferFormats] element that is the string "Text". *)
Definition IsTextFormat (Format : TSharedPtr FJsonValue) : Prop :=
  ∃ Value, Format = Some (FJsonValueString Value)
           ∧ FStringEq Value "Text" = true.

(** An [availableTransports] entry that is an object whose [transport]
    is the string "WebSockets" and whose [transferFormats] is an array
    containing the string "Text". *)
Definition AdvertisesWebSocketsText (Entry : TSharedPtr FJsonValue)
  : Prop :=
  ∃ TransportObj Name Formats,
    Entry = Some (FJsonValueObject TransportObj)
    ∧ Find TransportObj "transport" = Some (Some (FJsonValueString Name))
    ∧ FStringEq Name "WebSockets" = true
    ∧ Find TransportObj "transferFormats"
      = Some (Some (FJsonValueArray Formats))
    ∧ ∃ Format, Format ∈ Formats ∧ IsTextFormat Format.

(** The checks that stand before the [availableTransports] test: no
    [error] field, no [ProtocolVersion] field, no string [url]. *)
Definition ReachesTransportCheck (JsonObject : FJsonObject) : bool :=
  negb (HasField JsonObject "error")
  && negb (HasField JsonObject "ProtocolVersion")
  && negb (HasTypedField EJson_String JsonObject "url").

(** A response the handler validates to the end: it reaches the
    [availableTransports] test and, if the array is there, one of its
    entries raises the flag. *)
Definition PassesValidation (JsonObject : FJsonObject) : bool :=
  ReachesTransportCheck JsonObject
  && (negb (HasTypedField EJson_Array JsonObject "availableTransports")
      || ScanTransports (GetArrayField JsonObject "availableTransports")
                        false).

(** The identifier the end of the handler leaves in the object. *)
Definition StoredId (JsonObject : FJsonObject) (this : FConnection)
  : string :=
  if HasTypedField EJson_String JsonObject "connectionToken"
  then GetStringField JsonObject "connectionToken"
  else if HasTypedField EJson_String JsonObject "connectionId"
       then GetStringField JsonObject "connectionId"
       else ConnectionId this.

End Handshake.

(** ** Concrete collaborators and inputs *)

(** The double quote, and a JSON string literal without escapes. *)
Definition DoubleQuote : string := String (ascii_of_nat 34) EmptyString.

Definition Quoted (Text : string) : string :=
  DoubleQuote +:+ Text +:+ DoubleQuote.

(** A reader that knows the texts of a table and rejects every other
    text; it stands for the engine's reader at concrete inputs. *)
Definition TableReader (Table : list (string * FJsonObject))
    (Text : string) : option FJsonObject :=
  snd <$> List.find (λ Row, String.eqb (fst Row) Text) Table.

(** [FString] comparison ignoring the case of ASCII letters, and the
    exact one. *)
Definition ToLowerChar (c : ascii) : ascii :=
  let n := nat_of_ascii c in
  if (65 <=? n)%nat && (n <=? 90)%nat then ascii_of_nat (n + 32) else c.

Fixpoint ToLower (s : string) : string :=
  match s with
  | EmptyString => EmptyString
  | String c rest => String (ToLowerChar c) (ToLower rest)
  end.

Definition EqualsIgnoreCase (a b : string) : bool :=
  String.eqb (ToLower a) (ToLower b).

Definition EqualsCaseSensitive (a b : string) : bool := String.eqb a b.

(** The names the handler looks up or compares with. *)
Definition ProtocolNames : list string :=
  ["error"; "ProtocolVersion"; "url"; "accessToken";
   "availableTransports"; "transport"; "transferFormats";
   "connectionId"; "connectionToken"; "WebSockets"; "Text"].

(** A comparison that identifies each protocol name with itself and
    with no other protocol name. *)
Definition SeparatesProtocolNames (Eq : string → string → bool) : Prop :=
  ∀ a b, In a ProtocolNames → In b ProtocolNames →
         Eq a b = String.eqb a b.

(** The body of scenario A and the object it denotes. *)
Definition ScenarioA_Body : string :=
  "{" +:+ Quoted "availableTransports" +:+ ":[{"
      +:+ Quoted "transport" +:+ ":" +:+ Quoted "WebSockets" +:+ ","
      +:+ Quoted "transferFormats" +:+ ":[" +:+ Quoted "Text" +:+ "]}],"
      +:+ Quoted "connectionId" +:+ ":" +:+ Quoted "abc123" +:+ "}".

Definition ScenarioA_Object : FJsonObject :=
  [("availableTransports",
    Some (FJsonValueArray
      [Some (FJsonValueObject
         [("transport", Some (FJsonValueString "WebSockets"));
          ("transferFormats",
           Some (FJsonValueArray [Some (FJsonValueString "Text")]))])]));
   ("connectionId", Some (FJsonValueString "abc123"))].

(** Scenario B, a legacy server: the object with a [ProtocolVersion]. *)
Definition ScenarioB_Body : string :=
  "{" +:+ Quoted "ProtocolVersion" +:+ ":" +:+ Quoted "1.0" +:+ "}".

Definition ScenarioB_Object : FJsonObject :=
  [("ProtocolVersion", Some (FJsonValueString "1.0"))].

(** Scenario D, a server that only offers long polling. *)
Definition ScenarioD_Body : string :=
  "{" +:+ Quoted "availableTransports" +:+ ":[{"
      +:+ Quoted "transport" +:+ ":" +:+ Quoted "LongPolling" +:+ ","
      +:+ Quoted "transferFormats" +:+ ":[" +:+ Quoted "Text" +:+ "]}]}".

Definition ScenarioD_Object : FJsonObject :=
  [("availableTransports",
    Some (FJsonValueArray
      [Some (FJsonValueObject
         [("transport", Some (FJsonValueString "LongPolling"));
          ("transferFormats",
           Some (FJsonValueArray [Some (FJsonValueString "Text")]))])]))].

(** A server error next to fields that would otherwise validate. *)
Definition ErrorWithId_Body : string :=
  "{" +:+ Quoted "error" +:+ ":" +:+ Quoted "denied" +:+ ","
      +:+ Quoted "connectionId" +:+ ":" +:+ Quoted "abc123" +:+ "}".

Definition ErrorWithId_Object : FJsonObject :=
  [("error", Some (FJsonValueString "denied"));
   ("connectionId", Some (FJsonValueString "abc123"))].

(** Both identifier fields at once. *)
Definition BothIds_Body : string :=
  "{" +:+ Quoted "connectionId" +:+ ":" +:+ Quoted "abc123" +:+ ","
      +:+ Quoted "connectionToken" +:+ ":" +:+ Quoted "tok456" +:+ "}".

Definition BothIds_Object : FJsonObject :=
  [("connectionId", Some (FJsonValueString "abc123"));
   ("connectionToken", Some (FJsonValueString "tok456"))].

(** [availableTransports] that is a string, not an array. *)
Definition TransportsNotArray_Body : string :=
  "{" +:+ Quoted "availableTransports" +:+ ":" +:+ Quoted "LongPolling"
      +:+ "}".

Definition TransportsNotArray_Object : FJsonObject :=
  [("availableTransports", Some (FJsonValueString "LongPolling"))].

(** [url] that is a number, not a string. *)
Definition UrlNotString_Body : string :=
  "{" +:+ Quoted "url" +:+ ":5," +:+ Quoted "connectionId" +:+ ":"
      +:+ Quoted "abc123" +:+ "}".

Definition UrlNotString_Object : FJsonObject :=
  [("url", Some (FJsonValueNumber 5%float));
   ("connectionId", Some (FJsonValueString "abc123"))].

(** A redirect: a string [url] with its [accessToken]. *)
Definition Redirect_Body : string :=
  "{" +:+ Quoted "url" +:+ ":" +:+ Quoted "http://other:5000/hub" +:+ ","
      +:+ Quoted "accessToken" +:+ ":" +:+ Quoted "secret" +:+ "}".

Definition Redirect_Object : FJsonObject :=
  [("url", Some (FJsonValueString "http://other:5000/hub"));
   ("accessToken", Some (FJsonValueString "secret"))].

(** An entry that spells the transport in lower case. *)
Definition LowerCase_Body : string :=
  "{" +:+ Quoted "availableTransports" +:+ ":[{"
      +:+ Quoted "transport" +:+ ":" +:+ Quoted "websockets" +:+ ","
      +:+ Quoted "transferFormats" +:+ ":[" +:+ Quoted "Text" +:+ "]}]}".

Definition LowerCase_Object : FJsonObject :=
  [("availableTransports",
    Some (FJsonValueArray
      [Some (FJsonValueObject
         [("transport", Some (FJsonValueString "websockets"));
          ("transferFormats",
           Some (FJsonValueArray [Some (FJsonValueString "Text")]))])]))].

(** The sample responses as a reader, a module that always hands out
    socket [1], and a module that has no socket to give. *)
Definition SampleReader : string → option FJsonObject :=
  TableReader
    [(ScenarioA_Body, ScenarioA_Object);
     (ScenarioB_Body, ScenarioB_Object);
     (ScenarioD_Body, ScenarioD_Object);
     (ErrorWithId_Body, ErrorWithId_Object);
     (BothIds_Body, BothIds_Object);
     (TransportsNotArray_Body, TransportsNotArray_Object);
     (UrlNotString_Body, UrlNotString_Object);
     (Redirect_Body, Redirect_Object);
     (LowerCase_Body, LowerCase_Object)].

Definition SampleModule (Url Protocol : string)
    (UpgradeHeaders : gmap string string) : TSharedPtr IWebSocket :=
  Some 1%nat.

Definition FailingModule (Url Protocol : string)
    (UpgradeHeaders : gmap string string) : TSharedPtr IWebSocket :=
  None.

Definition SampleHeaders : gmap string string :=
  {[ "Authorization" := "Bearer token" ]}.

(** A connection as constructed, the same with a socket that has not
    connected yet, and the answer of such a socket to [IsConnected]. *)
Definition SampleConnection : FConnection :=
  FConnection_new "localhost:5000" SampleHeaders.

Definition PendingConnection : FConnection :=
  SetConnection (Some 1%nat) SampleConnection.

Definition NotYetConnected (Socket : IWebSocket) : bool := false.

(** Responses: status 200 with a given body, and a status 500. *)
Definition Ok200 (Body : string) : FHttpResponse :=
  {| GetResponseCode := 200; GetContentAsString := Body |}.

Definition InternalServerError : FHttpResponse :=
  {| GetResponseCode := 500; GetContentAsString := ScenarioA_Body |}.

(** The reading of [Send] under which a socket that is present but does
    not report itself connected receives nothing. *)
Definition SendOnlyWhenConnected (SocketIsConnected : IWebSocket → bool)
    (this : FConnection) (Data : string) : Prop :=
  if IsConnected SocketIsConnected this then
    ∃ Socket, Connection this = Some Socket
              ∧ exec (Send Data) this = (this, [SocketSend Socket Data])
  else
    fst (exec (Send Data) this) = this
    ∧ ExternalCalls (snd (exec (Send Data) this)) = [].

(** The reading of [Connect] under which the negotiate request carries
    the configured headers. *)
Definition ConnectPostsWithHeaders (this : FConnection) : Prop :=
  ∃ Request,
    exec Connect this = (this, [ProcessRequest Request])
    ∧ Verb Request = "POST"
    ∧ URL Request
      = "http://" +:+ Host this +:+ "/negotiate?negotiateVersion=1"
    ∧ RequestHeaders Request = Headers this.

(** The reading of scenario A under which the socket is requested with
    the header set the negotiate request carried: [Connect] sends one
    request, the handler on the response of scenario A asks for a
    socket at ws://{host} with no sub-protocol and stores "abc123", and
    the headers of the two calls are the same. *)
Definition ScenarioA_SameHeadersAsNegotiation
    (FStringEq : string → string → bool)
    (Deserialize : string → option FJsonObject)
    (CreateWebSocket :
       string → string → gmap string string → TSharedPtr IWebSocket)
    (this : FConnection) : Prop :=
  ∃ Request UpgradeHeaders this' Rest,
    exec Connect this = (this, [ProcessRequest Request])
    ∧ OnNegotiateResponse FStringEq Deserialize CreateWebSocket
        None (Some (Ok200 ScenarioA_Body)) true this
      = Some (this',
              CreateWebSocketCall ("ws://" +:+ Host this) ""
                                  UpgradeHeaders :: Rest)
    ∧ ConnectionId this' = "abc123"
    ∧ UpgradeHeaders = RequestHeaders Request.

(** ** Sequences of calls on one object

    What reaches an [FConnection] during its life: the calls of its
    owner ([Connect], [Send], [Close]), the completion of a negotiate
    request, and the signals of a socket, which run the lambdas that
    [StartWebSocket] attached to that socket. *)
Inductive FCall : Type :=
| CallConnect
| CallSend (Data : string)
| CallClose (Code : Z) (Reason : string)
| CallOnNegotiateResponse (InRequest : TSharedPtr FHttpRequest)
                          (InResponse : TSharedPtr FHttpResponse)
                          (bConnectedSuccessfully : bool)
| CallSocketSignal (Socket : IWebSocket) (Signal : FWebSocketSignal).

Definition IsCallConnect (Call : FCall) : bool :=
  match Call with
  | CallConnect => true
  | _ => false
  end.

Definition IsProcessRequest (e : Effect) : bool :=
  match e with
  | ProcessRequest _ => true
  | _ => false
  end.

(** The socket a call is made on, for the calls made on a socket. *)
Definition SocketTarget (e : Effect) : option IWebSocket :=
  match e with
  | AddLambda Socket _ => Some Socket
  | SocketConnect Socket => Some Socket
  | SocketSend Socket _ => Some Socket
  | SocketClose Socket _ _ => Some Socket
  | _ => None
  end.

(** The calls found in the traces of the negotiate handler: the log,
    the request for a socket, the lambdas and [Connect]. *)
Definition IsStartEffect (e : Effect) : bool :=
  match e with
  | Log _ _ _ => true
  | CreateWebSocketCall _ _ _ => true
  | AddLambda _ _ => true
  | SocketConnect _ => true
  | _ => false
  end.

(** The calls found in the traces of the lambdas: the log and the
    broadcasts. *)
Definition IsRelayEffect (e : Effect) : bool :=
  match e with
  | Log _ _ _ => true
  | Broadcast _ => true
  | _ => false
  end.

(** An [availableTransports] entry the outer loop looks into: a valid
    pointer to an object. *)
Definition IsObjectEntry (Entry : TSharedPtr FJsonValue) : bool :=
  match Entry with
  | Some (FJsonValueObject _) => true
  | _ => false
  end.

(** The event a signal belongs to. *)
Definition EventOf (Signal : FWebSocketSignal) : EWebSocketEvent :=
  match Signal with
  | SigConnected => EvConnected
  | SigConnectionError _ => EvConnectionError
  | SigClosed _ _ _ => EvClosed
  | SigMessage _ => EvMessage
  end.

#[global] Instance EWebSocketEvent_eq_dec : EqDecision EWebSocketEvent.
Proof. solve_decision. Defined.

Definition IsAddLambda (Socket : IWebSocket) (Event : EWebSocketEvent)
    (e : Effect) : bool :=
  match e with
  | AddLambda Socket' Event' =>
      bool_decide (Socket' = Socket) && bool_decide (Event' = Event)
  | _ => false
  end.

(** How many lambdas a trace has attached to an event of a socket, and
    how many sockets it has asked of the WebSockets module. *)
Definition AttachedLambdas (Before : list Effect) (Socket : IWebSocket)
    (Event : EWebSocketEvent) : nat :=
  length (List.filter (IsAddLambda Socket Event) Before).

Definition SocketsRequested (Before : list Effect) : nat :=
  length (List.filter IsCreateWebSocket Before).

(** An action run a number of times in a row. *)
Fixpoint Repeated (Times : nat) (m : Action unit) : Action unit :=
  match Times with
  | O => mret tt
  | S Rest => m;; Repeated Rest m
  end.

Section Sessions.

Variable FStringEq : string → string → bool.
Variable Deserialize : string → option FJsonObject.

(** The WebSockets module over the life of the object: what it returns
    to [CreateWebSocket] depends on how many sockets it was asked for
    before, so that each request may be answered with a socket of its
    own, or with none. *)
Variable Module :
  nat → string → string → gmap string string → TSharedPtr IWebSocket.

(** One call, after the calls that left the trace [Before], with the
    state and the trace it leaves; nothing on a null response.  A
    negotiate response runs the handler against the module as it stands
    after the requests of [Before].  A signal of a socket runs the
    lambda of its event once for each time [Before] attached one to
    that socket: never, for a socket this object has attached nothing
    to. *)
Definition RunCall (Before : list Effect) (Call : FCall)
    (this : FConnection) : option (FConnection * list Effect) :=
  match Call with
  | CallConnect => Some (exec Connect this)
  | CallSend Data => Some (exec (Send Data) this)
  | CallClose Code Reason => Some (exec (Close Code Reason) this)
  | CallOnNegotiateResponse InRequest InResponse bConnectedSuccessfully =>
      OnNegotiateResponse FStringEq Deserialize
        (Module (SocketsRequested Before))
        InRequest InResponse bConnectedSuccessfully this
  | CallSocketSignal Socket Signal =>
      Some (exec (Repeated (AttachedLambdas Before Socket (EventOf Signal))
                           (OnSocketSignal Signal))
                 this)
  end.

(** The calls one after the other, each after the trace of the ones
    before it; the result is the trace the calls add to [Before]. *)
Fixpoint RunCallsFrom (Before : list Effect) (Calls : list FCall)
    (this : FConnection) : option (FConnection * list Effect) :=
  match Calls with
  | [] => Some (this, [])
  | Call :: Rest =>
      match RunCall Before Call this with
      | None => None
      | Some (this1, Trace1) =>
          match RunCallsFrom (Before ++ Trace1) Rest this1 with
          | None => None
          | Some (this2, Trace2) => Some (this2, Trace1 ++ Trace2)
          end
      end
  end.

(** The calls of a whole life, from an empty trace. *)
Definition RunCalls (Calls : list FCall) (this : FConnection)
  : option (FConnection * list Effect) :=
  RunCallsFrom [] Calls this.

(** The socket handle is what the module returned to the most recent
    request of [Before], and null when [Before] holds no request. *)
Definition HandleIsLatest (Before : list Effect) (this : FConnection)
  : Prop :=
  match SocketsRequested Before with
  | O => Connection this = None
  | S Earlier =>
      Connection this
      = Module Earlier ("ws://" +:+ Host this) "" (Headers this)
  end.

End Sessions.

(** A module that answers its n-th request with socket n, counted from
    1: a new socket each time. *)
Definition FreshSocketModule (Requested : nat) (Url Protocol : string)
    (UpgradeHeaders : gmap string string) : TSharedPtr IWebSocket :=
  Some (S Requested).

(** An empty [availableTransports], and a reader that knows it. *)
Definition EmptyTransports_Body : string :=
  "{" +:+ Quoted "availableTransports" +:+ ":[]," +:+ Quoted "connectionId"
      +:+ ":" +:+ Quoted "abc123" +:+ "}".

Definition EmptyTransports_Object : FJsonObject :=
  [("availableTransports", Some (FJsonValueArray []));
   ("connectionId", Some (FJsonValueString "abc123"))].

Definition EmptyTransportsReader : string → option FJsonObject :=
  TableReader [(EmptyTransports_Body, EmptyTransports_Object)].

(** A connection that already holds socket 7 and identifier "old". *)
Definition EstablishedConnection : FConnection :=
  SetConnection (Some 7%nat) (SetConnectionId "old" SampleConnection).

(** A life of a connection: connect, send too early, a legacy answer,
    connect again, a good answer, send, a message on the socket, close,
    send; then a third negotiation that replaces the socket, a send, a
    message on the first socket, and a message on a socket the object
    never saw. *)
Definition SampleCalls : list FCall :=
  [CallConnect;
   CallSend "early";
   CallOnNegotiateResponse None (Some (Ok200 ScenarioB_Body)) true;
   CallConnect;
   CallOnNegotiateResponse None (Some (Ok200 ScenarioA_Body)) true;
   CallSend "hello";
   CallSocketSignal 1%nat (SigMessage "world");
   CallClose 1000 "normal";
   CallSend "late";
   CallConnect;
   CallOnNegotiateResponse None (Some (Ok200 BothIds_Body)) true;
   CallSend "again";
   CallSocketSignal 1%nat (SigMessage "still here");
   CallSocketSignal 9%nat (SigMessage "stranger")].

(** ** Facts about the member functions *)

(** The body of scenario A has the 103 characters of its JSON text, and
    the table reader reads it as the object above. *)
Example ScenarioA_Body_text :
  String.length ScenarioA_Body = 103
  ∧ SampleReader ScenarioA_Body = Some ScenarioA_Object.
Proof. split; reflexivity. Qed.

(** Unfolds the plumbing of [Action] and leaves the tests of the code. *)
Ltac step_action :=
  cbv beta iota zeta
      delta [exec mbind mret Action_bind Action_ret self emit assign].

Lemma exec_Send (Data : string) (this : FConnection) :
  exec (Send Data) this
  = (this,
     match Connection this with
     | Some Socket => [SocketSend Socket Data]
     | None =>
         [Log Error "Cannot send data to non connected websocket." []]
     end).
Proof. unfold Send. step_action. destruct (Connection this); reflexivity. Qed.

Lemma exec_Close (Code : Z) (Reason : string) (this : FConnection) :
  exec (Close Code Reason) this
  = (this,
     match Connection this with
     | Some Socket => [SocketClose Socket Code Reason]
     | None => [Log Error "Cannot close non connected websocket." []]
     end).
Proof.
  unfold Close. step_action. destruct (Connection this); reflexivity.
Qed.

Lemma exec_Connect (this : FConnection) :
  exec Connect this
  = (this,
     [ProcessRequest
        {| Verb := "POST";
           URL := "http://" +:+ Host this
                  +:+ "/negotiate?negotiateVersion=1";
           RequestHeaders := ∅;
           Payload := "";
           OnProcessRequestComplete := BoundTo_OnNegotiateResponse |}]).
Proof. reflexivity. Qed.

Section HandshakeFacts.

Variable FStringEq : string → string → bool.
Variable Deserialize : string → option FJsonObject.
Variable CreateWebSocket :
  string → string → gmap string string → TSharedPtr IWebSocket.

Local Abbreviation Find' := (Find FStringEq).
Local Abbreviation HasField' := (HasField FStringEq).
Local Abbreviation HasTypedField' := (HasTypedField FStringEq).
Local Abbreviation GetStringField' := (GetStringField FStringEq).
Local Abbreviation GetArrayField' := (GetArrayField FStringEq).
Local Abbreviation Handler :=
  (OnNegotiateResponse FStringEq Deserialize CreateWebSocket).
Local Abbreviation StoreIdAndStart' :=
  (StoreIdAndStart FStringEq CreateWebSocket).

(** *** The accessors of [FJsonObject] in terms of [Find] *)

Lemma HasField_true (Obj : FJsonObject) (Name : string) :
  HasField' Obj Name = true ↔ ∃ v, Find' Obj Name = Some (Some v).
Proof.
  unfold HasField. destruct (Find' Obj Name) as [[v|]|]; split;
    try discriminate; eauto; intros [v' Hv]; discriminate.
Qed.

Lemma HasTypedField_true (T : EJson) (Obj : FJsonObject) (Name : string) :
  HasTypedField' T Obj Name = true
  ↔ ∃ v, Find' Obj Name = Some (Some v) ∧ JsonType v = T.
Proof.
  unfold HasTypedField. destruct (Find' Obj Name) as [[v|]|].
  - rewrite bool_decide_eq_true. split.
    + intros Hv. exists v. split; [reflexivity | exact Hv].
    + intros (v' & Hv' & HT). congruence.
  - split; [discriminate | intros (v' & Hv' & _); discriminate].
  - split; [discriminate | intros (v' & Hv' & _); discriminate].
Qed.

Lemma HasTypedField_HasField (T : EJson) (Obj : FJsonObject)
    (Name : string) :
  HasTypedField' T Obj Name = true → HasField' Obj Name = true.
Proof.
  rewrite HasTypedField_true, HasField_true. intros (v & Hv & _). eauto.
Qed.

Lemma HasTypedField_wrong_type (T : EJson) (Obj : FJsonObject)
    (Name : string) (v : FJsonValue) :
  Find' Obj Name = Some (Some v) → JsonType v ≠ T →
  HasTypedField' T Obj Name = false.
Proof.
  intros Hv HT. unfold HasTypedField. rewrite Hv.
  apply bool_decide_eq_false. exact HT.
Qed.

Lemma HasTypedField_absent (T : EJson) (Obj : FJsonObject)
    (Name : string) :
  HasField' Obj Name = false → HasTypedField' T Obj Name = false.
Proof.
  intros H. destruct (HasTypedField' T Obj Name) eqn:E; [| reflexivity].
  apply HasTypedField_HasField in E. congruence.
Qed.

Lemma string_field (Obj : FJsonObject) (Name Value : string) :
  Find' Obj Name = Some (Some (FJsonValueString Value)) →
  HasTypedField' EJson_String Obj Name = true
  ∧ GetStringField' Obj Name = Value.
Proof.
  intros H. unfold HasTypedField, GetStringField. rewrite H. split; reflexivity.
Qed.

Lemma array_field (Obj : FJsonObject) (Name : string)
    (Elements : list (TSharedPtr FJsonValue)) :
  Find' Obj Name = Some (Some (FJsonValueArray Elements)) →
  HasTypedField' EJson_Array Obj Name = true
  ∧ GetArrayField' Obj Name = Elements.
Proof.
  intros H. unfold HasTypedField, GetArrayField. rewrite H. split; reflexivity.
Qed.

(** A value with the [String] tag is a string value, and likewise for
    the other two tags the handler tests. *)
Lemma JsonType_String (v : FJsonValue) :
  JsonType v = EJson_String ↔ ∃ s, v = FJsonValueString s.
Proof.
  split; [| intros [s ->]; reflexivity].
  destruct v; try discriminate. eauto.
Qed.

Lemma JsonType_Array (v : FJsonValue) :
  JsonType v = EJson_Array ↔ ∃ a, v = FJsonValueArray a.
Proof.
  split; [| intros [a ->]; reflexivity].
  destruct v; try discriminate. eauto.
Qed.

Lemma JsonType_Object (v : FJsonValue) :
  JsonType v = EJson_Object ↔ ∃ o, v = FJsonValueObject o.
Proof.
  split; [| intros [o ->]; reflexivity].
  destruct v; try discriminate. eauto.
Qed.

(** *** The two loops of the compatibility check *)

Lemma ScanTransferFormats_true (Formats : list (TSharedPtr FJsonValue))
    (bIsCompatible : bool) :
  ScanTransferFormats FStringEq Formats bIsCompatible = true
  ↔ bIsCompatible = true
    ∨ ∃ Format, Format ∈ Formats ∧ IsTextFormat FStringEq Format.
Proof.
  unfold ScanTransferFormats.
  revert bIsCompatible.
  induction Formats as [| Format Formats IH]; intros b; simpl.
  - split; [auto |].
    intros [Hb | (f & Hin & _)]; [exact Hb | inversion Hin].
  - rewrite IH. clear IH. split.
    + intros [Hstep | (f & Hin & Hf)].
      * destruct Format as [v |]; [| auto].
        destruct (bool_decide (JsonType v = EJson_String)
                  && FStringEq (AsString v) "Text") eqn:E; [| auto].
        right. exists (Some v). split; [left |].
        apply andb_true_iff in E as [Ht Heq].
        apply bool_decide_eq_true in Ht.
        apply JsonType_String in Ht as [s ->].
        exists s. split; [reflexivity | exact Heq].
      * right. exists f. split; [right; exact Hin | exact Hf].
    + intros [Hb | (f & Hin & Hf)].
      * left. subst b. destruct Format as [v |]; [| reflexivity].
        destruct (_ && _); reflexivity.
      * apply elem_of_cons in Hin as [-> | Hin].
        -- left. destruct Hf as (s & -> & Heq). simpl.
           rewrite Heq. reflexivity.
        -- right. exists f. split; assumption.
Qed.

(** What one entry does to the flag. *)
Lemma ScanTransports_entry (Entry : TSharedPtr FJsonValue)
    (bIsCompatible : bool) :
  ScanTransports FStringEq [Entry] bIsCompatible = true
  ↔ bIsCompatible = true ∨ AdvertisesWebSocketsText FStringEq Entry.
Proof.
  unfold ScanTransports. simpl. split.
  - destruct Entry as [v |]; [| auto].
    destruct (bool_decide (JsonType v = EJson_Object)) eqn:Eo; [| auto].
    apply bool_decide_eq_true, JsonType_Object in Eo as [Obj ->]. simpl.
    destruct (HasTypedField' EJson_String Obj "transport") eqn:Et;
      simpl; [| auto].
    destruct (FStringEq (GetStringField' Obj "transport") "WebSockets")
      eqn:Ew; simpl; [| auto].
    destruct (HasTypedField' EJson_Array Obj "transferFormats") eqn:Ef;
      simpl; [| auto].
    rewrite ScanTransferFormats_true. intros [Hb | Hfmt]; [auto |].
    right.
    apply HasTypedField_true in Et as (vt & Ht & Htt).
    apply JsonType_String in Htt as [Name ->].
    apply HasTypedField_true in Ef as (vf & Hf & Hft).
    apply JsonType_Array in Hft as [Formats ->].
    exists Obj, Name, Formats.
    unfold GetStringField in Ew. rewrite Ht in Ew.
    unfold GetArrayField in Hfmt. rewrite Hf in Hfmt.
    repeat split; assumption.
  - intros [Hb | (Obj & Name & Formats & -> & Ht & Hw & Hf & Hfmt)].
    + subst bIsCompatible. destruct Entry as [v |]; [| reflexivity].
      destruct (bool_decide _); [| reflexivity].
      destruct (_ && _); [| reflexivity].
      apply ScanTransferFormats_true. auto.
    + simpl.
      destruct (string_field _ _ _ Ht) as [-> ->].
      destruct (array_field _ _ _ Hf) as [-> ->].
      rewrite Hw. simpl.
      apply ScanTransferFormats_true. auto.
Qed.

Lemma ScanTransports_true (Transports : list (TSharedPtr FJsonValue))
    (bIsCompatible : bool) :
  ScanTransports FStringEq Transports bIsCompatible = true
  ↔ bIsCompatible = true
    ∨ ∃ Entry, Entry ∈ Transports
               ∧ AdvertisesWebSocketsText FStringEq Entry.
Proof.
  revert bIsCompatible.
  induction Transports as [| Entry Transports IH]; intros b.
  - split; [auto |].
    intros [Hb | (e & Hin & _)]; [exact Hb | inversion Hin].
  - change (ScanTransports FStringEq (Entry :: Transports) b)
      with (ScanTransports FStringEq Transports
              (ScanTransports FStringEq [Entry] b)).
    rewrite IH, ScanTransports_entry. split.
    + intros [[Hb | He] | (e & Hin & He)]; [auto | |].
      * right. exists Entry. split; [left | exact He].
      * right. exists e. split; [right; exact Hin | exact He].
    + intros [Hb | (e & Hin & He)]; [auto |].
      apply elem_of_cons in Hin as [-> | Hin]; [auto |].
      right. exists e. split; assumption.
Qed.

(** *** The handler, step by step *)

(** On status 200 and a body the reader accepts, the handler is the
    handler on the object. *)
Lemma Handler_on_object (InRequest : TSharedPtr FHttpRequest)
    (Response : FHttpResponse) (bConnectedSuccessfully : bool)
    (JsonObject : FJsonObject) (this : FConnection) :
  GetResponseCode Response = 200%Z →
  Deserialize (GetContentAsString Response) = Some JsonObject →
  Handler InRequest (Some Response) bConnectedSuccessfully this
  = Some (exec (OnNegotiateObject FStringEq CreateWebSocket JsonObject)
               this).
Proof.
  intros Hcode Hparse. unfold OnNegotiateResponse.
  rewrite Hcode, Hparse. reflexivity.
Qed.

(** State and trace of [StartWebSocket]. *)
Lemma exec_StartWebSocket (this : FConnection) :
  exec (StartWebSocket CreateWebSocket) this
  = (SetConnection
       (CreateWebSocket ("ws://" +:+ Host this) "" (Headers this)) this,
     CreateWebSocketCall ("ws://" +:+ Host this) "" (Headers this)
     :: match CreateWebSocket ("ws://" +:+ Host this) "" (Headers this)
        with
        | Some Socket =>
            [AddLambda Socket EvConnected;
             AddLambda Socket EvConnectionError;
             AddLambda Socket EvClosed;
             AddLambda Socket EvMessage;
             SocketConnect Socket]
        | None => [Log Error "Cannot start websocket." []]
        end).
Proof.
  unfold StartWebSocket. step_action. simpl.
  destruct (CreateWebSocket _ _ _); reflexivity.
Qed.

Lemma exec_assign_then (f : FConnection → FConnection)
    (m : Action unit) (this : FConnection) :
  exec (assign f;; m) this = exec m (f this).
Proof.
  step_action. destruct (m (f this)) as [[[] this'] Trace]. reflexivity.
Qed.

Lemma exec_ret_then (m : Action unit) (this : FConnection) :
  exec (mret tt;; m) this = exec m this.
Proof.
  step_action. destruct (m this) as [[[] this'] Trace]. reflexivity.
Qed.

Lemma exec_StoreIdAndStart (JsonObject : FJsonObject)
    (this : FConnection) :
  exec (StoreIdAndStart' JsonObject) this
  = exec (StartWebSocket CreateWebSocket)
         (SetConnectionId (StoredId FStringEq JsonObject this) this).
Proof.
  unfold StoreIdAndStart, StoredId.
  destruct (HasTypedField' EJson_String JsonObject "connectionId");
    destruct (HasTypedField' EJson_String JsonObject "connectionToken");
    repeat (rewrite exec_assign_then || rewrite exec_ret_then);
    reflexivity.
Qed.

Lemma StoreIdAndStart_constructs (JsonObject : FJsonObject)
    (this : FConnection) :
  ConstructsTransport (snd (exec (StoreIdAndStart' JsonObject) this))
  = true.
Proof.
  rewrite exec_StoreIdAndStart, exec_StartWebSocket. reflexivity.
Qed.

(** A response that does not pass validation leaves the object as it
    was and calls nothing but the log. *)
Lemma OnNegotiateObject_aborts (JsonObject : FJsonObject)
    (this : FConnection) :
  PassesValidation FStringEq JsonObject = false →
  ∃ Trace,
    exec (OnNegotiateObject FStringEq CreateWebSocket JsonObject) this
    = (this, Trace)
    ∧ ExternalCalls Trace = [].
Proof.
  unfold PassesValidation, ReachesTransportCheck, OnNegotiateObject,
    CheckTransportsAndStart.
  destruct (HasField' JsonObject "error"); simpl;
    [intros _; eexists; split; reflexivity |].
  destruct (HasField' JsonObject "ProtocolVersion"); simpl;
    [intros _; eexists; split; reflexivity |].
  destruct (HasTypedField' EJson_String JsonObject "url"); simpl;
    [intros _; eexists; split; reflexivity |].
  destruct (HasTypedField' EJson_Array JsonObject "availableTransports");
    simpl; [| discriminate].
  intros ->. simpl. eexists; split; reflexivity.
Qed.

Lemma CheckTransportsAndStart_skipped (JsonObject : FJsonObject) :
  HasTypedField' EJson_Array JsonObject "availableTransports" = false →
  CheckTransportsAndStart FStringEq CreateWebSocket JsonObject
  = StoreIdAndStart' JsonObject.
Proof. intros H. unfold CheckTransportsAndStart. rewrite H. reflexivity. Qed.

Lemma OnNegotiateObject_reaches_check (JsonObject : FJsonObject) :
  ReachesTransportCheck FStringEq JsonObject = true →
  OnNegotiateObject FStringEq CreateWebSocket JsonObject
  = CheckTransportsAndStart FStringEq CreateWebSocket JsonObject.
Proof.
  unfold ReachesTransportCheck, OnNegotiateObject.
  intros H. apply andb_true_iff in H as [H Hurl].
  apply andb_true_iff in H as [Herr Hpv].
  apply negb_true_iff in Herr, Hpv, Hurl.
  rewrite Herr, Hpv, Hurl. reflexivity.
Qed.

Lemma OnNegotiateObject_passes (JsonObject : FJsonObject) :
  PassesValidation FStringEq JsonObject = true →
  OnNegotiateObject FStringEq CreateWebSocket JsonObject
  = StoreIdAndStart' JsonObject.
Proof.
  unfold PassesValidation. intros H.
  apply andb_true_iff in H as [Hreach Hcompat].
  rewrite (OnNegotiateObject_reaches_check _ Hreach).
  unfold CheckTransportsAndStart.
  destruct (HasTypedField' EJson_Array JsonObject "availableTransports");
    [| reflexivity].
  simpl in Hcompat. rewrite Hcompat. reflexivity.
Qed.

Lemma no_external_call_no_transport (Trace : list Effect) :
  ExternalCalls Trace = [] → ConstructsTransport Trace = false.
Proof.
  unfold ExternalCalls, ConstructsTransport.
  induction Trace as [| e Trace IH]; [reflexivity |].
  simpl. destruct e; simpl; try discriminate. exact IH.
Qed.

Lemma Handler_aborts (InRequest : TSharedPtr FHttpRequest)
    (Response : FHttpResponse) (bConnectedSuccessfully : bool)
    (JsonObject : FJsonObject) (this : FConnection) :
  GetResponseCode Response = 200%Z →
  Deserialize (GetContentAsString Response) = Some JsonObject →
  PassesValidation FStringEq JsonObject = false →
  ∃ Trace,
    Handler InRequest (Some Response) bConnectedSuccessfully this
    = Some (this, Trace)
    ∧ ConstructsTransport Trace = false.
Proof.
  intros Hcode Hparse Hfail.
  destruct (OnNegotiateObject_aborts JsonObject this Hfail)
    as (Trace & Hrun & Hquiet).
  exists Trace. split.
  - rewrite (Handler_on_object _ _ _ _ _ Hcode Hparse), Hrun. reflexivity.
  - apply no_external_call_no_transport. exact Hquiet.
Qed.

Lemma Handler_passes (InRequest : TSharedPtr FHttpRequest)
    (Response : FHttpResponse) (bConnectedSuccessfully : bool)
    (JsonObject : FJsonObject) (this : FConnection) :
  GetResponseCode Response = 200%Z →
  Deserialize (GetContentAsString Response) = Some JsonObject →
  PassesValidation FStringEq JsonObject = true →
  Handler InRequest (Some Response) bConnectedSuccessfully this
  = Some (exec (StoreIdAndStart' JsonObject) this).
Proof.
  intros Hcode Hparse Hpass.
  rewrite (Handler_on_object _ _ _ _ _ Hcode Hparse).
  rewrite (OnNegotiateObject_passes _ Hpass). reflexivity.
Qed.

(** *** The negotiate response *)

(** C1: a negotiate response whose status code is not 200 makes the
    handler log the code and return.  The outcome is the same whatever
    the body and whatever the reader would make of it; the trace holds
    no call to the WebSockets module; the object, with its socket handle
    and its identifier, is as it was. *)
Theorem non_200_aborts (InRequest : TSharedPtr FHttpRequest)
    (Response : FHttpResponse) (bConnectedSuccessfully : bool)
    (this : FConnection) :
  GetResponseCode Response ≠ 200%Z →
  Handler InRequest (Some Response) bConnectedSuccessfully this
  = Some (this,
          [Log Error "Negotiate failed with status code %d"
               [ArgInt (GetResponseCode Response)]]).
Proof.
  intros Hcode. unfold OnNegotiateResponse.
  apply Z.eqb_neq in Hcode. rewrite Hcode. reflexivity.
Qed.

(** C2: a status-200 response whose body reads as an object with a
    [ProtocolVersion] field never leads to a call to the WebSockets
    module, whatever else the object holds; the object is as it was. *)
Theorem ProtocolVersion_never_constructs
    (InRequest : TSharedPtr FHttpRequest) (Response : FHttpResponse)
    (bConnectedSuccessfully : bool) (JsonObject : FJsonObject)
    (this : FConnection) :
  GetResponseCode Response = 200%Z →
  Deserialize (GetContentAsString Response) = Some JsonObject →
  HasField' JsonObject "ProtocolVersion" = true →
  ∃ Trace,
    Handler InRequest (Some Response) bConnectedSuccessfully this
    = Some (this, Trace)
    ∧ ConstructsTransport Trace = false.
Proof.
  intros Hcode Hparse Hpv.
  apply Handler_aborts with (JsonObject := JsonObject); try assumption.
  unfold PassesValidation, ReachesTransportCheck. rewrite Hpv.
  rewrite andb_false_r. reflexivity.
Qed.

(** C10: a status-200 response whose body reads as an object with an
    [error] field makes the handler return with the object as it was
    and an empty trace: no socket is asked for and no identifier is
    stored, whatever else the object holds. *)
Theorem error_field_changes_nothing
    (InRequest : TSharedPtr FHttpRequest) (Response : FHttpResponse)
    (bConnectedSuccessfully : bool) (JsonObject : FJsonObject)
    (this : FConnection) :
  GetResponseCode Response = 200%Z →
  Deserialize (GetContentAsString Response) = Some JsonObject →
  HasField' JsonObject "error" = true →
  Handler InRequest (Some Response) bConnectedSuccessfully this
  = Some (this, []).
Proof.
  intros Hcode Hparse Herr.
  rewrite (Handler_on_object _ _ _ _ _ Hcode Hparse).
  unfold OnNegotiateObject. rewrite Herr. reflexivity.
Qed.

(** Past the first three checks, an [availableTransports] that is not
    an array, or is not there, sends the handler straight to the
    identifier fields and the socket. *)
Lemma Handler_skips_check (InRequest : TSharedPtr FHttpRequest)
    (Response : FHttpResponse) (bConnectedSuccessfully : bool)
    (JsonObject : FJsonObject) (this : FConnection) :
  GetResponseCode Response = 200%Z →
  Deserialize (GetContentAsString Response) = Some JsonObject →
  ReachesTransportCheck FStringEq JsonObject = true →
  HasTypedField' EJson_Array JsonObject "availableTransports" = false →
  Handler InRequest (Some Response) bConnectedSuccessfully this
  = Some (exec (StoreIdAndStart' JsonObject) this)
  ∧ ConstructsTransport (snd (exec (StoreIdAndStart' JsonObject) this))
    = true.
Proof.
  intros Hcode Hparse Hreach Hnot. split.
  - apply Handler_passes; try assumption.
    unfold PassesValidation. rewrite Hreach, Hnot. reflexivity.
  - apply StoreIdAndStart_constructs.
Qed.

(** C3: when [availableTransports] is an array, a socket is asked for
    only if some entry is an object whose [transport] is "WebSockets"
    and whose [transferFormats] array contains "Text"; when no entry is
    such, the handler returns with the object as it was and no socket
    asked for; when [availableTransports] is not there, a response that
    came through the earlier checks goes on to the identifier fields
    and the socket, the compatibility test left out. *)
Theorem availableTransports_compatibility
    (InRequest : TSharedPtr FHttpRequest) (Response : FHttpResponse)
    (bConnectedSuccessfully : bool) (JsonObject : FJsonObject)
    (this : FConnection) :
  GetResponseCode Response = 200%Z →
  Deserialize (GetContentAsString Response) = Some JsonObject →
  (∀ Transports,
     Find' JsonObject "availableTransports"
     = Some (Some (FJsonValueArray Transports)) →
     (∀ this' Trace,
        Handler InRequest (Some Response) bConnectedSuccessfully this
        = Some (this', Trace) →
        ConstructsTransport Trace = true →
        ∃ Entry, Entry ∈ Transports
                 ∧ AdvertisesWebSocketsText FStringEq Entry)
     ∧ ((∀ Entry, Entry ∈ Transports →
                  ¬ AdvertisesWebSocketsText FStringEq Entry) →
        ∃ Trace,
          Handler InRequest (Some Response) bConnectedSuccessfully this
          = Some (this, Trace)
          ∧ ConstructsTransport Trace = false))
  ∧ (HasField' JsonObject "availableTransports" = false →
     ReachesTransportCheck FStringEq JsonObject = true →
     Handler InRequest (Some Response) bConnectedSuccessfully this
     = Some (exec (StoreIdAndStart' JsonObject) this)
     ∧ ConstructsTransport
         (snd (exec (StoreIdAndStart' JsonObject) this)) = true).
Proof.
  intros Hcode Hparse. split.
  - intros Transports Hfind.
    destruct (array_field _ _ _ Hfind) as [Harr Hget].
    assert (Hscan :
      PassesValidation FStringEq JsonObject = true →
      ∃ Entry, Entry ∈ Transports
               ∧ AdvertisesWebSocketsText FStringEq Entry).
    { unfold PassesValidation. rewrite Harr, Hget. simpl.
      intros H. apply andb_true_iff in H as [_ H].
      apply ScanTransports_true in H as [H | H];
        [discriminate | exact H]. }
    split.
    + intros this' Trace Hrun Hcons.
      destruct (PassesValidation FStringEq JsonObject) eqn:Hpass;
        [auto |].
      destruct (Handler_aborts InRequest _ bConnectedSuccessfully
                  _ this Hcode Hparse Hpass) as (Trace' & Hrun' & Hno).
      congruence.
    + intros Hnone.
      apply Handler_aborts with (JsonObject := JsonObject);
        try assumption.
      destruct (PassesValidation FStringEq JsonObject) eqn:Hpass;
        [| reflexivity].
      destruct (Hscan eq_refl) as (Entry & Hin & Hadv).
      destruct (Hnone Entry Hin Hadv).
  - intros Habsent Hreach.
    apply Handler_skips_check; try assumption.
    apply HasTypedField_absent. exact Habsent.
Qed.

(** C8: when [availableTransports] is there but is not an array, the
    compatibility test is left out: a response that came through the
    earlier checks goes on to the identifier fields and the socket. *)
Theorem availableTransports_not_array_skips_check
    (InRequest : TSharedPtr FHttpRequest) (Response : FHttpResponse)
    (bConnectedSuccessfully : bool) (JsonObject : FJsonObject)
    (Value : FJsonValue) (this : FConnection) :
  GetResponseCode Response = 200%Z →
  Deserialize (GetContentAsString Response) = Some JsonObject →
  Find' JsonObject "availableTransports" = Some (Some Value) →
  JsonType Value ≠ EJson_Array →
  ReachesTransportCheck FStringEq JsonObject = true →
  Handler InRequest (Some Response) bConnectedSuccessfully this
  = Some (exec (StoreIdAndStart' JsonObject) this)
  ∧ ConstructsTransport (snd (exec (StoreIdAndStart' JsonObject) this))
    = true.
Proof.
  intros Hcode Hparse Hfind Htype Hreach.
  apply Handler_skips_check; try assumption.
  apply HasTypedField_wrong_type with (v := Value); assumption.
Qed.

(** C9: when [url] is there but is not a string, the redirect branch is
    not taken: with no [error] and no [ProtocolVersion], the handler
    goes on with the [availableTransports] test and, unless that test
    fails, with the identifier fields and the socket. *)
Theorem url_not_string_continues
    (InRequest : TSharedPtr FHttpRequest) (Response : FHttpResponse)
    (bConnectedSuccessfully : bool) (JsonObject : FJsonObject)
    (Value : FJsonValue) (this : FConnection) :
  GetResponseCode Response = 200%Z →
  Deserialize (GetContentAsString Response) = Some JsonObject →
  HasField' JsonObject "error" = false →
  HasField' JsonObject "ProtocolVersion" = false →
  Find' JsonObject "url" = Some (Some Value) →
  JsonType Value ≠ EJson_String →
  Handler InRequest (Some Response) bConnectedSuccessfully this
  = Some (exec (CheckTransportsAndStart FStringEq CreateWebSocket
                  JsonObject) this)
  ∧ ((∀ Transports,
        Find' JsonObject "availableTransports"
        = Some (Some (FJsonValueArray Transports)) →
        ∃ Entry, Entry ∈ Transports
                 ∧ AdvertisesWebSocketsText FStringEq Entry) →
     ∃ this' Trace,
       Handler InRequest (Some Response) bConnectedSuccessfully this
       = Some (this', Trace)
       ∧ ConstructsTransport Trace = true
       ∧ ConnectionId this' = StoredId FStringEq JsonObject this).
Proof.
  intros Hcode Hparse Herr Hpv Hurl Htype.
  assert (Hreach : ReachesTransportCheck FStringEq JsonObject = true).
  { unfold ReachesTransportCheck. rewrite Herr, Hpv.
    rewrite (HasTypedField_wrong_type _ _ _ _ Hurl Htype). reflexivity. }
  split.
  - rewrite (Handler_on_object _ _ _ _ _ Hcode Hparse).
    rewrite (OnNegotiateObject_reaches_check _ Hreach). reflexivity.
  - intros Hcompat.
    assert (Hpass : PassesValidation FStringEq JsonObject = true).
    { unfold PassesValidation. rewrite Hreach. simpl.
      destruct (HasTypedField' EJson_Array JsonObject
                  "availableTransports") eqn:Harr; [| reflexivity].
      simpl. apply HasTypedField_true in Harr as (v & Hv & Hty).
      apply JsonType_Array in Hty as [Transports ->].
      destruct (array_field _ _ _ Hv) as [_ ->].
      apply ScanTransports_true. right. exact (Hcompat _ Hv). }
    rewrite (Handler_passes _ _ _ _ _ Hcode Hparse Hpass).
    rewrite exec_StoreIdAndStart, exec_StartWebSocket.
    eexists _, _. split; [reflexivity |]. split; reflexivity.
Qed.

(** C6: on a response that passes validation, when [connectionId] and
    [connectionToken] are both strings the stored identifier is the
    value of [connectionToken], the field read last; when only one of
    the two is a string, the stored identifier is its value. *)
Theorem connectionToken_read_last
    (InRequest : TSharedPtr FHttpRequest) (Response : FHttpResponse)
    (bConnectedSuccessfully : bool) (JsonObject : FJsonObject)
    (this : FConnection) :
  GetResponseCode Response = 200%Z →
  Deserialize (GetContentAsString Response) = Some JsonObject →
  PassesValidation FStringEq JsonObject = true →
  ∃ this' Trace,
    Handler InRequest (Some Response) bConnectedSuccessfully this
    = Some (this', Trace)
    ∧ (∀ Id Token,
         Find' JsonObject "connectionId"
         = Some (Some (FJsonValueString Id)) →
         Find' JsonObject "connectionToken"
         = Some (Some (FJsonValueString Token)) →
         ConnectionId this' = Token)
    ∧ (∀ Id,
         Find' JsonObject "connectionId"
         = Some (Some (FJsonValueString Id)) →
         HasTypedField' EJson_String JsonObject "connectionToken"
         = false →
         ConnectionId this' = Id)
    ∧ (∀ Token,
         HasTypedField' EJson_String JsonObject "connectionId" = false →
         Find' JsonObject "connectionToken"
         = Some (Some (FJsonValueString Token)) →
         ConnectionId this' = Token).
Proof.
  intros Hcode Hparse Hpass.
  rewrite (Handler_passes _ _ _ _ _ Hcode Hparse Hpass).
  rewrite exec_StoreIdAndStart, exec_StartWebSocket.
  eexists _, _. split; [reflexivity |].
  simpl. unfold StoredId. repeat split.
  - intros Id Token _ Htoken.
    destruct (string_field _ _ _ Htoken) as [-> ->]. reflexivity.
  - intros Id Hid Hno.
    destruct (string_field _ _ _ Hid) as [-> ->]. rewrite Hno.
    reflexivity.
  - intros Token _ Htoken.
    destruct (string_field _ _ _ Htoken) as [-> ->]. reflexivity.
Qed.

(** *** Scenario A *)

(** Replaces each comparison of two protocol names by its value. *)
Ltac compare_names H :=
  repeat (progress
            (unfold HasField, HasTypedField, GetArrayField,
               GetStringField;
             simpl;
             repeat match goal with
                    | |- context [FStringEq ?a ?b] =>
                        rewrite (H a b)
                          by (simpl; repeat ((left; reflexivity) || right))
                    end;
             simpl)).

Lemma ScenarioA_passes :
  SeparatesProtocolNames FStringEq →
  PassesValidation FStringEq ScenarioA_Object = true.
Proof.
  intros Hnames.
  unfold PassesValidation, ReachesTransportCheck, HasField,
    HasTypedField, GetArrayField, GetStringField, ScanTransports,
    ScanTransferFormats, ScenarioA_Object.
  simpl. compare_names Hnames. reflexivity.
Qed.

Lemma ScenarioA_id (this : FConnection) :
  SeparatesProtocolNames FStringEq →
  StoredId FStringEq ScenarioA_Object this = "abc123".
Proof.
  intros Hnames.
  unfold StoredId, HasTypedField, GetStringField, ScenarioA_Object.
  simpl. compare_names Hnames. reflexivity.
Qed.

(** Scenario A in general: on status 200 and the body of scenario A,
    the handler asks the WebSockets module for a socket at ws://{host},
    with an empty protocol and the header map of the object, keeps what
    the module returns as its socket handle and stores "abc123" as
    identifier; on a valid socket it attaches the four lambdas and
    calls [Connect]. *)
Theorem scenario_A_starts_websocket
    (InRequest : TSharedPtr FHttpRequest) (Response : FHttpResponse)
    (bConnectedSuccessfully : bool) (this : FConnection) :
  SeparatesProtocolNames FStringEq →
  Deserialize ScenarioA_Body = Some ScenarioA_Object →
  GetResponseCode Response = 200%Z →
  GetContentAsString Response = ScenarioA_Body →
  Handler InRequest (Some Response) bConnectedSuccessfully this
  = Some
      ({| Host := Host this;
          Headers := Headers this;
          ConnectionId := "abc123";
          Connection :=
            CreateWebSocket ("ws://" +:+ Host this) "" (Headers this) |},
       CreateWebSocketCall ("ws://" +:+ Host this) "" (Headers this)
       :: match CreateWebSocket ("ws://" +:+ Host this) ""
                  (Headers this)
          with
          | Some Socket =>
              [AddLambda Socket EvConnected;
               AddLambda Socket EvConnectionError;
               AddLambda Socket EvClosed;
               AddLambda Socket EvMessage;
               SocketConnect Socket]
          | None => [Log Error "Cannot start websocket." []]
          end).
Proof.
  intros Hnames Hparse Hcode Hbody.
  rewrite <- Hbody in Hparse.
  rewrite (Handler_passes _ _ _ _ _ Hcode Hparse
             (ScenarioA_passes Hnames)).
  rewrite exec_StoreIdAndStart, exec_StartWebSocket.
  rewrite (ScenarioA_id this Hnames). reflexivity.
Qed.

End HandshakeFacts.

(** ** The comparisons of the engine tell the protocol names apart *)

Lemma EqualsCaseSensitive_separates :
  SeparatesProtocolNames EqualsCaseSensitive.
Proof. intros a b _ _. reflexivity. Qed.

Lemma EqualsIgnoreCase_separates :
  SeparatesProtocolNames EqualsIgnoreCase.
Proof.
  intros a b Ha Hb. simpl in Ha, Hb.
  repeat (destruct Ha as [<- | Ha]; [| try contradiction]);
    repeat (destruct Hb as [<- | Hb]; [| try contradiction]);
    try contradiction; vm_compute; reflexivity.
Qed.

(** ** [Send] and [Connect] *)

(** [Send] with a socket in hand that does not report itself connected
    is not a no-op: the data reaches the socket. *)
Lemma Send_reaches_unconnected_socket :
  ¬ SendOnlyWhenConnected NotYetConnected PendingConnection "ping".
Proof.
  unfold SendOnlyWhenConnected. rewrite exec_Send. simpl.
  intros [_ Hquiet]. discriminate Hquiet.
Qed.

(** C5, as the code has it: with a socket in hand [Send] passes the data
    to it as given, whether or not the socket reports itself connected;
    with none it logs, calls no collaborator and drops the data.  In
    both cases the object is as it was and the call returns. *)
Theorem Send_forwards_when_socket_present (Data : string)
    (this : FConnection) :
  match Connection this with
  | Some Socket =>
      exec (Send Data) this = (this, [SocketSend Socket Data])
  | None =>
      exec (Send Data) this
      = (this,
         [Log Error "Cannot send data to non connected websocket." []])
      ∧ ExternalCalls (snd (exec (Send Data) this)) = []
  end.
Proof.
  rewrite exec_Send. destruct (Connection this); [reflexivity |].
  split; reflexivity.
Qed.

(** The negotiate request carries the configured headers only when
    there are none. *)
Lemma ConnectPostsWithHeaders_iff (this : FConnection) :
  ConnectPostsWithHeaders this ↔ Headers this = ∅.
Proof.
  unfold ConnectPostsWithHeaders. rewrite exec_Connect. split.
  - intros (Request & Hrun & _ & _ & Hheaders).
    injection Hrun as <-. symmetry. exact Hheaders.
  - intros Hempty. eexists. split; [reflexivity |].
    repeat split. simpl. symmetry. exact Hempty.
Qed.

(** C4, at a connection configured with one header: [Connect] issues a
    single POST to the negotiate URL of the host, and the request has
    no header at all, so its headers are not the configured map. *)
Theorem Connect_request_lacks_headers :
  exec Connect SampleConnection
  = (SampleConnection,
     [ProcessRequest
        {| Verb := "POST";
           URL := "http://localhost:5000/negotiate?negotiateVersion=1";
           RequestHeaders := ∅;
           Payload := "";
           OnProcessRequestComplete := BoundTo_OnNegotiateResponse |}])
  ∧ ¬ ConnectPostsWithHeaders SampleConnection.
Proof.
  split; [reflexivity |].
  rewrite ConnectPostsWithHeaders_iff. intros Hempty.
  apply (f_equal (λ m : gmap string string, m !! "Authorization"))
    in Hempty.
  vm_compute in Hempty. discriminate Hempty.
Qed.

(** C7, at a connection configured with one header: [Connect] sends
    the negotiate request without any header; on the status-200
    response of scenario A the handler asks for a socket at
    ws://localhost:5000 with no sub-protocol, stores "abc123" and takes
    the socket, but the headers it passes are the configured ones, so
    the socket is not requested with the header set of negotiation. *)
Theorem scenario_A_headers_differ_from_negotiation :
  exec Connect SampleConnection
  = (SampleConnection,
     [ProcessRequest
        {| Verb := "POST";
           URL := "http://localhost:5000/negotiate?negotiateVersion=1";
           RequestHeaders := ∅;
           Payload := "";
           OnProcessRequestComplete := BoundTo_OnNegotiateResponse |}])
  ∧ OnNegotiateResponse EqualsIgnoreCase SampleReader SampleModule
      None (Some (Ok200 ScenarioA_Body)) true SampleConnection
    = Some
        ({| Host := "localhost:5000";
            Headers := SampleHeaders;
            ConnectionId := "abc123";
            Connection := Some 1%nat |},
         [CreateWebSocketCall "ws://localhost:5000" "" SampleHeaders;
          AddLambda 1%nat EvConnected;
          AddLambda 1%nat EvConnectionError;
          AddLambda 1%nat EvClosed;
          AddLambda 1%nat EvMessage;
          SocketConnect 1%nat])
  ∧ ¬ ScenarioA_SameHeadersAsNegotiation EqualsIgnoreCase SampleReader
        SampleModule SampleConnection.
Proof.
  split; [reflexivity |]. split; [reflexivity |].
  intros (Request & UpgradeHeaders & this' & Rest & Hconnect & Hrun
          & _ & Hsame).
  rewrite exec_Connect in Hconnect. injection Hconnect as <-.
  assert (Hhandler :
    OnNegotiateResponse EqualsIgnoreCase SampleReader SampleModule
      None (Some (Ok200 ScenarioA_Body)) true SampleConnection
    = Some
        (SetConnection (Some 1%nat)
           (SetConnectionId "abc123" SampleConnection),
         [CreateWebSocketCall "ws://localhost:5000" "" SampleHeaders;
          AddLambda 1%nat EvConnected;
          AddLambda 1%nat EvConnectionError;
          AddLambda 1%nat EvClosed;
          AddLambda 1%nat EvMessage;
          SocketConnect 1%nat])) by reflexivity.
  rewrite Hhandler in Hrun. injection Hrun as _ Hheaders _.
  rewrite <- Hheaders in Hsame. simpl in Hsame.
  apply (f_equal (λ m : gmap string string, m !! "Authorization"))
    in Hsame.
  vm_compute in Hsame. discriminate Hsame.
Qed.

(** ** The theorems at the sample responses

    Each statement below is its theorem at one response, with the
    case-insensitive comparison, the table reader and a module that
    hands out socket 1. *)

Lemma non_200_aborts_witness :
  GetResponseCode InternalServerError ≠ 200%Z
  ∧ OnNegotiateResponse EqualsIgnoreCase SampleReader SampleModule
      None (Some InternalServerError) false SampleConnection
    = Some (SampleConnection,
            [Log Error "Negotiate failed with status code %d"
                 [ArgInt 500]]).
Proof.
  split; [simpl; lia |].
  apply (non_200_aborts EqualsIgnoreCase SampleReader SampleModule
           None InternalServerError false SampleConnection).
  simpl; lia.
Defined.

Lemma ProtocolVersion_never_constructs_witness :
  HasField EqualsIgnoreCase ScenarioB_Object "ProtocolVersion" = true
  ∧ ∃ Trace,
      OnNegotiateResponse EqualsIgnoreCase SampleReader SampleModule
        None (Some (Ok200 ScenarioB_Body)) true SampleConnection
      = Some (SampleConnection, Trace)
      ∧ ConstructsTransport Trace = false.
Proof.
  split; [reflexivity |].
  apply (ProtocolVersion_never_constructs EqualsIgnoreCase SampleReader
           SampleModule None (Ok200 ScenarioB_Body) true
           ScenarioB_Object SampleConnection);
    reflexivity.
Defined.

Lemma error_field_changes_nothing_witness :
  HasField EqualsIgnoreCase ErrorWithId_Object "error" = true
  ∧ OnNegotiateResponse EqualsIgnoreCase SampleReader SampleModule
      None (Some (Ok200 ErrorWithId_Body)) true SampleConnection
    = Some (SampleConnection, []).
Proof.
  split; [reflexivity |].
  apply (error_field_changes_nothing EqualsIgnoreCase SampleReader
           SampleModule None (Ok200 ErrorWithId_Body) true
           ErrorWithId_Object SampleConnection);
    reflexivity.
Defined.

(** Scenario D: long polling only, hence no socket. *)
Lemma availableTransports_compatibility_witness :
  SampleReader (GetContentAsString (Ok200 ScenarioD_Body))
  = Some ScenarioD_Object
  ∧ ∃ Trace,
      OnNegotiateResponse EqualsIgnoreCase SampleReader SampleModule
        None (Some (Ok200 ScenarioD_Body)) true SampleConnection
      = Some (SampleConnection, Trace)
      ∧ ConstructsTransport Trace = false.
Proof.
  split; [reflexivity |].
  destruct (availableTransports_compatibility EqualsIgnoreCase
              SampleReader SampleModule None (Ok200 ScenarioD_Body) true
              ScenarioD_Object SampleConnection eq_refl eq_refl)
    as [Harray _].
  destruct (Harray _ eq_refl) as [_ Hnone].
  apply Hnone. intros Entry Hin.
  apply list_elem_of_singleton in Hin as ->.
  intros (Obj & Name & Formats & Hobj & Hname & Hws & _).
  injection Hobj as <-. injection Hname as <-. discriminate Hws.
Defined.

Lemma availableTransports_not_array_skips_check_witness :
  Find EqualsIgnoreCase TransportsNotArray_Object "availableTransports"
  = Some (Some (FJsonValueString "LongPolling"))
  ∧ ReachesTransportCheck EqualsIgnoreCase TransportsNotArray_Object
    = true
  ∧ OnNegotiateResponse EqualsIgnoreCase SampleReader SampleModule
      None (Some (Ok200 TransportsNotArray_Body)) true SampleConnection
    = Some (exec (StoreIdAndStart EqualsIgnoreCase SampleModule
                    TransportsNotArray_Object) SampleConnection)
  ∧ ConstructsTransport
      (snd (exec (StoreIdAndStart EqualsIgnoreCase SampleModule
                    TransportsNotArray_Object) SampleConnection))
    = true.
Proof.
  split; [reflexivity |]. split; [reflexivity |].
  apply (availableTransports_not_array_skips_check EqualsIgnoreCase
           SampleReader SampleModule None
           (Ok200 TransportsNotArray_Body) true
           TransportsNotArray_Object (FJsonValueString "LongPolling")
           SampleConnection);
    try reflexivity.
  simpl. discriminate.
Defined.

Lemma url_not_string_continues_witness :
  Find EqualsIgnoreCase UrlNotString_Object "url"
  = Some (Some (FJsonValueNumber 5%float))
  ∧ ∃ this' Trace,
      OnNegotiateResponse EqualsIgnoreCase SampleReader SampleModule
        None (Some (Ok200 UrlNotString_Body)) true SampleConnection
      = Some (this', Trace)
      ∧ ConstructsTransport Trace = true
      ∧ ConnectionId this' = "abc123".
Proof.
  split; [reflexivity |].
  destruct (url_not_string_continues EqualsIgnoreCase SampleReader
              SampleModule None (Ok200 UrlNotString_Body) true
              UrlNotString_Object (FJsonValueNumber 5%float)
              SampleConnection eq_refl eq_refl eq_refl eq_refl eq_refl)
    as [_ Hgoes]; [simpl; discriminate |].
  destruct Hgoes as (this' & Trace & Hrun & Hcons & Hid).
  - intros Transports Hfind. discriminate Hfind.
  - exists this', Trace. repeat split; assumption.
Defined.

Lemma connectionToken_read_last_witness :
  PassesValidation EqualsIgnoreCase BothIds_Object = true
  ∧ ∃ this' Trace,
      OnNegotiateResponse EqualsIgnoreCase SampleReader SampleModule
        None (Some (Ok200 BothIds_Body)) true SampleConnection
      = Some (this', Trace)
      ∧ ConnectionId this' = "tok456".
Proof.
  split; [reflexivity |].
  destruct (connectionToken_read_last EqualsIgnoreCase SampleReader
              SampleModule None (Ok200 BothIds_Body) true BothIds_Object
              SampleConnection eq_refl eq_refl eq_refl)
    as (this' & Trace & Hrun & Hboth & _).
  exists this', Trace. split; [exact Hrun |].
  apply (Hboth "abc123" "tok456"); reflexivity.
Defined.

Lemma scenario_A_starts_websocket_witness :
  SampleReader ScenarioA_Body = Some ScenarioA_Object
  ∧ OnNegotiateResponse EqualsIgnoreCase SampleReader SampleModule
      None (Some (Ok200 ScenarioA_Body)) true SampleConnection
    = Some
        ({| Host := "localhost:5000";
            Headers := SampleHeaders;
            ConnectionId := "abc123";
            Connection := Some 1%nat |},
         [CreateWebSocketCall "ws://localhost:5000" "" SampleHeaders;
          AddLambda 1%nat EvConnected;
          AddLambda 1%nat EvConnectionError;
          AddLambda 1%nat EvClosed;
          AddLambda 1%nat EvMessage;
          SocketConnect 1%nat]).
Proof.
  split; [reflexivity |].
  apply (scenario_A_starts_websocket EqualsIgnoreCase SampleReader
           SampleModule None (Ok200 ScenarioA_Body) true SampleConnection
           EqualsIgnoreCase_separates);
    reflexivity.
Defined.

(** ** The handler run on the sample responses *)

Example run_null_response :
  OnNegotiateResponse EqualsIgnoreCase SampleReader SampleModule
    None None false SampleConnection
  = None.
Proof. reflexivity. Qed.

Example run_unreadable_body :
  OnNegotiateResponse EqualsIgnoreCase SampleReader SampleModule
    None (Some (Ok200 "<html>")) true SampleConnection
  = Some (SampleConnection,
          [Log Error "Cannot parse negotiate response: %s"
               [ArgString "<html>"]]).
Proof. reflexivity. Qed.

Example run_scenario_B :
  OnNegotiateResponse EqualsIgnoreCase SampleReader SampleModule
    None (Some (Ok200 ScenarioB_Body)) true SampleConnection
  = Some (SampleConnection,
          [Log Error "Detected a connection attempt to an ASP.NET SignalR Server. This client only supports connecting to an ASP.NET Core SignalR Server. See https://aka.ms/signalr-core-differences for details." []]).
Proof. reflexivity. Qed.

Example run_scenario_D :
  OnNegotiateResponse EqualsIgnoreCase SampleReader SampleModule
    None (Some (Ok200 ScenarioD_Body)) true SampleConnection
  = Some (SampleConnection,
          [Log Error "The server does not support WebSockets which is currently the only transport supported by this client." []]).
Proof. reflexivity. Qed.

Example run_redirect :
  OnNegotiateResponse EqualsIgnoreCase SampleReader SampleModule
    None (Some (Ok200 Redirect_Body)) true SampleConnection
  = Some (SampleConnection, []).
Proof. reflexivity. Qed.

Example run_transports_not_array :
  OnNegotiateResponse EqualsIgnoreCase SampleReader SampleModule
    None (Some (Ok200 TransportsNotArray_Body)) true SampleConnection
  = Some (SetConnection (Some 1%nat) SampleConnection,
          [CreateWebSocketCall "ws://localhost:5000" "" SampleHeaders;
           AddLambda 1%nat EvConnected;
           AddLambda 1%nat EvConnectionError;
           AddLambda 1%nat EvClosed;
           AddLambda 1%nat EvMessage;
           SocketConnect 1%nat]).
Proof. reflexivity. Qed.

Example run_module_without_socket :
  OnNegotiateResponse EqualsIgnoreCase SampleReader FailingModule
    None (Some (Ok200 ScenarioA_Body)) true SampleConnection
  = Some (SetConnectionId "abc123" SampleConnection,
          [CreateWebSocketCall "ws://localhost:5000" "" SampleHeaders;
           Log Error "Cannot start websocket." []]).
Proof. reflexivity. Qed.

(** What counts as equal to "WebSockets" is the comparison's business:
    the lower-case spelling passes the one that ignores case and fails
    the exact one. *)
Example run_lower_case_ignoring_case :
  PassesValidation EqualsIgnoreCase LowerCase_Object = true.
Proof. reflexivity. Qed.

Example run_lower_case_exact :
  PassesValidation EqualsCaseSensitive LowerCase_Object = false.
Proof. reflexivity. Qed.

Example run_IsConnected :
  IsConnected NotYetConnected PendingConnection = false
  ∧ IsConnected NotYetConnected SampleConnection = false
  ∧ IsConnected (λ _, true) PendingConnection = true.
Proof. repeat split. Qed.

Example run_Close :
  exec (Close 1000 "normal") PendingConnection
  = (PendingConnection, [SocketClose 1%nat 1000 "normal"])
  ∧ exec (Close 1000 "normal") SampleConnection
    = (SampleConnection,
       [Log Error "Cannot close non connected websocket." []]).
Proof. split; reflexivity. Qed.

Example run_OnSocketSignal :
  exec (OnSocketSignal (SigClosed 1000 "normal" true)) PendingConnection
  = (PendingConnection, [Broadcast (SigClosed 1000 "normal" true)])
  ∧ exec (OnSocketSignal (SigConnectionError "refused"))
      PendingConnection
    = (PendingConnection,
       [Log Warning "Websocket err: %s" [ArgString "refused"];
        Broadcast (SigConnectionError "refused")]).
Proof. split; reflexivity. Qed.

(** ** More about the negotiate handler *)

Section HandlerFacts.

Variable FStringEq : string → string → bool.
Variable Deserialize : string → option FJsonObject.
Variable CreateWebSocket :
  string → string → gmap string string → TSharedPtr IWebSocket.

Local Abbreviation Find' := (Find FStringEq).
Local Abbreviation HasField' := (HasField FStringEq).
Local Abbreviation HasTypedField' := (HasTypedField FStringEq).
Local Abbreviation Handler :=
  (OnNegotiateResponse FStringEq Deserialize CreateWebSocket).
Local Abbreviation StoreIdAndStart' :=
  (StoreIdAndStart FStringEq CreateWebSocket).
Local Abbreviation Validated :=
  (λ Response : FHttpResponse,
     GetResponseCode Response = 200%Z
     ∧ ∃ JsonObject,
         Deserialize (GetContentAsString Response) = Some JsonObject
         ∧ PassesValidation FStringEq JsonObject = true).

(** State and trace of the last statements of the handler. *)
Lemma exec_StoreIdAndStart_full (JsonObject : FJsonObject)
    (this : FConnection) :
  exec (StoreIdAndStart' JsonObject) this
  = ({| Host := Host this;
        Headers := Headers this;
        ConnectionId := StoredId FStringEq JsonObject this;
        Connection :=
          CreateWebSocket ("ws://" +:+ Host this) "" (Headers this) |},
     CreateWebSocketCall ("ws://" +:+ Host this) "" (Headers this)
     :: match CreateWebSocket ("ws://" +:+ Host this) "" (Headers this)
        with
        | Some Socket =>
            [AddLambda Socket EvConnected;
             AddLambda Socket EvConnectionError;
             AddLambda Socket EvClosed;
             AddLambda Socket EvMessage;
             SocketConnect Socket]
        | None => [Log Error "Cannot start websocket." []]
        end).
Proof.
  rewrite exec_StoreIdAndStart, exec_StartWebSocket. reflexivity.
Qed.

(** An object that does not pass validation: nothing but at most one
    log line, and the object as it was. *)
Lemma OnNegotiateObject_aborts_quietly (JsonObject : FJsonObject)
    (this : FConnection) :
  PassesValidation FStringEq JsonObject = false →
  ∃ Trace,
    exec (OnNegotiateObject FStringEq CreateWebSocket JsonObject) this
    = (this, Trace)
    ∧ ExternalCalls Trace = []
    ∧ (length Trace ≤ 1)%nat.
Proof.
  unfold PassesValidation, ReachesTransportCheck, OnNegotiateObject,
    CheckTransportsAndStart.
  destruct (HasField' JsonObject "error"); simpl;
    [intros _; eexists; repeat split; simpl; lia |].
  destruct (HasField' JsonObject "ProtocolVersion"); simpl;
    [intros _; eexists; repeat split; simpl; lia |].
  destruct (HasTypedField' EJson_String JsonObject "url"); simpl;
    [intros _; eexists; repeat split; simpl; lia |].
  destruct (HasTypedField' EJson_Array JsonObject "availableTransports");
    simpl; [| discriminate].
  intros ->. simpl. eexists; repeat split; simpl; lia.
Qed.

(** The two ways the handler ends on a response: either it returns
    with the object as it was and at most one log line, or the response
    is validated and the last statements run. *)
Lemma Handler_cases (InRequest : TSharedPtr FHttpRequest)
    (Response : FHttpResponse) (bConnectedSuccessfully : bool)
    (this : FConnection) :
  (¬ Validated Response
   ∧ ∃ Trace,
       Handler InRequest (Some Response) bConnectedSuccessfully this
       = Some (this, Trace)
       ∧ ExternalCalls Trace = []
       ∧ (length Trace ≤ 1)%nat)
  ∨ (∃ JsonObject,
       GetResponseCode Response = 200%Z
       ∧ Deserialize (GetContentAsString Response) = Some JsonObject
       ∧ PassesValidation FStringEq JsonObject = true
       ∧ Handler InRequest (Some Response) bConnectedSuccessfully this
         = Some (exec (StoreIdAndStart' JsonObject) this)).
Proof.
  destruct (Z.eq_dec (GetResponseCode Response) 200%Z) as [Hcode | Hcode].
  - destruct (Deserialize (GetContentAsString Response))
      as [JsonObject |] eqn:Hparse.
    + destruct (PassesValidation FStringEq JsonObject) eqn:Hpass.
      * right. exists JsonObject. repeat split; try assumption.
        apply Handler_passes; assumption.
      * left. split.
        { intros (_ & Obj & HObj & HP). congruence. }
        destruct (OnNegotiateObject_aborts_quietly JsonObject this Hpass)
          as (Trace & Hrun & Hquiet & Hlen).
        exists Trace. repeat split; try assumption.
        rewrite (Handler_on_object _ _ _ _ _ _ _ _ Hcode Hparse), Hrun.
        reflexivity.
    + left. split.
      { intros (_ & Obj & HObj & _). discriminate HObj. }
      eexists. unfold OnNegotiateResponse. rewrite Hcode, Hparse.
      repeat split; simpl; lia.
  - left. split.
    { intros (H & _). contradiction. }
    eexists. unfold OnNegotiateResponse.
    apply Z.eqb_neq in Hcode. rewrite Hcode.
    repeat split; simpl; lia.
Qed.

Lemma only_logs_are_start_effects (Trace : list Effect) :
  ExternalCalls Trace = [] → forallb IsStartEffect Trace = true.
Proof.
  unfold ExternalCalls.
  induction Trace as [| e Trace IH]; [reflexivity |].
  simpl. destruct e; simpl; try discriminate. exact IH.
Qed.

(** X1: on status 200 and a body the reader rejects, the handler logs
    the body as received and returns; the object is as it was. *)
Theorem unreadable_body_aborts (InRequest : TSharedPtr FHttpRequest)
    (Response : FHttpResponse) (bConnectedSuccessfully : bool)
    (this : FConnection) :
  GetResponseCode Response = 200%Z →
  Deserialize (GetContentAsString Response) = None →
  Handler InRequest (Some Response) bConnectedSuccessfully this
  = Some (this,
          [Log Error "Cannot parse negotiate response: %s"
               [ArgString (GetContentAsString Response)]]).
Proof.
  intros Hcode Hparse. unfold OnNegotiateResponse.
  rewrite Hcode, Hparse. reflexivity.
Qed.

(** X2: a string [url], with no [error] and no [ProtocolVersion] in the
    object, ends the handler at once: no log, no request to the new
    address, no socket, the object as it was.  Neither [accessToken]
    nor any other field has a say. *)
Theorem string_url_returns_silently
    (InRequest : TSharedPtr FHttpRequest) (Response : FHttpResponse)
    (bConnectedSuccessfully : bool) (JsonObject : FJsonObject)
    (RedirectionUrl : string) (this : FConnection) :
  GetResponseCode Response = 200%Z →
  Deserialize (GetContentAsString Response) = Some JsonObject →
  HasField' JsonObject "error" = false →
  HasField' JsonObject "ProtocolVersion" = false →
  Find' JsonObject "url" = Some (Some (FJsonValueString RedirectionUrl)) →
  Handler InRequest (Some Response) bConnectedSuccessfully this
  = Some (this, []).
Proof.
  intros Hcode Hparse Herr Hpv Hurl.
  rewrite (Handler_on_object _ _ _ _ _ _ _ _ Hcode Hparse).
  unfold OnNegotiateObject. rewrite Herr, Hpv.
  destruct (string_field _ _ _ _ Hurl) as [-> _]. reflexivity.
Qed.

(** Validation said through the fields of the object: no [error], no
    [ProtocolVersion], no string [url], and, when [availableTransports]
    is an array, an entry in it that is an object with [transport]
    "WebSockets" and "Text" among its [transferFormats]. *)
Lemma PassesValidation_fields (JsonObject : FJsonObject) :
  PassesValidation FStringEq JsonObject = true
  ↔ HasField' JsonObject "error" = false
    ∧ HasField' JsonObject "ProtocolVersion" = false
    ∧ HasTypedField' EJson_String JsonObject "url" = false
    ∧ ∀ Transports,
        Find' JsonObject "availableTransports"
        = Some (Some (FJsonValueArray Transports)) →
        ∃ Entry, Entry ∈ Transports
                 ∧ AdvertisesWebSocketsText FStringEq Entry.
Proof.
  unfold PassesValidation, ReachesTransportCheck.
  rewrite !andb_true_iff, !negb_true_iff, orb_true_iff, negb_true_iff.
  split.
  - intros [[[Herr Hpv] Hurl] Hcompat].
    repeat split; try assumption.
    intros Transports Hfind.
    destruct (array_field _ _ _ _ Hfind) as [Harr Hget].
    rewrite Harr, Hget in Hcompat.
    destruct Hcompat as [Hcompat | Hcompat]; [discriminate |].
    apply ScanTransports_true in Hcompat as [Hflag | Hentry];
      [discriminate | exact Hentry].
  - intros (Herr & Hpv & Hurl & Hcompat).
    repeat split; try assumption.
    destruct (HasTypedField' EJson_Array JsonObject
                "availableTransports") eqn:Harr; [right | left; reflexivity].
    apply HasTypedField_true in Harr as (v & Hfind & Htype).
    apply JsonType_Array in Htype as [Transports ->].
    destruct (array_field _ _ _ _ Hfind) as [_ ->].
    apply ScanTransports_true. right. exact (Hcompat _ Hfind).
Qed.

(** X3: the handler asks the WebSockets module for a socket exactly
    when the status is 200, the reader accepts the body, and the object
    has no [error] field, no [ProtocolVersion] field, no string [url]
    and, if its [availableTransports] is an array, an entry in it that
    is an object with [transport] "WebSockets" and "Text" among its
    [transferFormats]. *)
Theorem socket_requested_iff_validated
    (InRequest : TSharedPtr FHttpRequest) (Response : FHttpResponse)
    (bConnectedSuccessfully : bool) (this : FConnection) :
  ∃ this' Trace,
    Handler InRequest (Some Response) bConnectedSuccessfully this
    = Some (this', Trace)
    ∧ (ConstructsTransport Trace = true
       ↔ GetResponseCode Response = 200%Z
         ∧ ∃ JsonObject,
             Deserialize (GetContentAsString Response) = Some JsonObject
             ∧ HasField' JsonObject "error" = false
             ∧ HasField' JsonObject "ProtocolVersion" = false
             ∧ HasTypedField' EJson_String JsonObject "url" = false
             ∧ ∀ Transports,
                 Find' JsonObject "availableTransports"
                 = Some (Some (FJsonValueArray Transports)) →
                 ∃ Entry, Entry ∈ Transports
                          ∧ AdvertisesWebSocketsText FStringEq Entry).
Proof.
  destruct (Handler_cases InRequest Response bConnectedSuccessfully this)
    as [(Hnot & Trace & Hrun & Hquiet & _)
       | (JsonObject & Hcode & Hparse & Hpass & Hrun)].
  - exists this, Trace. split; [exact Hrun |].
    rewrite (no_external_call_no_transport _ Hquiet).
    split; [discriminate |].
    intros (Hcode & JsonObject & Hparse & Hfields).
    destruct Hnot. split; [exact Hcode |].
    exists JsonObject. split; [exact Hparse |].
    apply PassesValidation_fields. exact Hfields.
  - rewrite exec_StoreIdAndStart_full in Hrun.
    eexists _, _. split; [exact Hrun |].
    split; [intros _ | reflexivity].
    split; [exact Hcode |]. exists JsonObject.
    split; [exact Hparse |].
    apply PassesValidation_fields. exact Hpass.
Qed.

(** X4: when the handler has not asked for a socket it has changed
    nothing: the object is as it was, identifier included, and the
    trace is at most one log line. *)
Theorem no_socket_request_no_change
    (InRequest : TSharedPtr FHttpRequest) (Response : FHttpResponse)
    (bConnectedSuccessfully : bool) (this this' : FConnection)
    (Trace : list Effect) :
  Handler InRequest (Some Response) bConnectedSuccessfully this
  = Some (this', Trace) →
  ConstructsTransport Trace = false →
  this' = this ∧ ExternalCalls Trace = [] ∧ (length Trace ≤ 1)%nat.
Proof.
  intros Hrun Hnone.
  destruct (Handler_cases InRequest Response bConnectedSuccessfully this)
    as [(_ & Trace' & Hrun' & Hquiet & Hlen)
       | (JsonObject & _ & _ & _ & Hrun')].
  - rewrite Hrun' in Hrun. injection Hrun as <- <-.
    repeat split; assumption.
  - rewrite exec_StoreIdAndStart_full in Hrun'.
    rewrite Hrun' in Hrun. injection Hrun as <- <-.
    discriminate Hnone.
Qed.

(** X5: an [availableTransports] array with no entry at all is a
    capability mismatch, unlike a missing [availableTransports]: the
    handler logs it and returns with the object as it was. *)
Theorem empty_availableTransports_aborts
    (InRequest : TSharedPtr FHttpRequest) (Response : FHttpResponse)
    (bConnectedSuccessfully : bool) (JsonObject : FJsonObject)
    (this : FConnection) :
  GetResponseCode Response = 200%Z →
  Deserialize (GetContentAsString Response) = Some JsonObject →
  ReachesTransportCheck FStringEq JsonObject = true →
  Find' JsonObject "availableTransports"
  = Some (Some (FJsonValueArray [])) →
  Handler InRequest (Some Response) bConnectedSuccessfully this
  = Some (this,
          [Log Error "The server does not support WebSockets which is currently the only transport supported by this client." []]).
Proof.
  intros Hcode Hparse Hreach Hfind.
  rewrite (Handler_on_object _ _ _ _ _ _ _ _ Hcode Hparse).
  rewrite (OnNegotiateObject_reaches_check _ _ _ Hreach).
  unfold CheckTransportsAndStart.
  destruct (array_field _ _ _ _ Hfind) as [-> ->]. reflexivity.
Qed.

(** X6: on a validated response in which neither [connectionId] nor
    [connectionToken] is a string, the socket is asked for all the same
    and the identifier the object held before stays in place. *)
Theorem identifier_kept_without_string_id
    (InRequest : TSharedPtr FHttpRequest) (Response : FHttpResponse)
    (bConnectedSuccessfully : bool) (JsonObject : FJsonObject)
    (this : FConnection) :
  GetResponseCode Response = 200%Z →
  Deserialize (GetContentAsString Response) = Some JsonObject →
  PassesValidation FStringEq JsonObject = true →
  HasTypedField' EJson_String JsonObject "connectionId" = false →
  HasTypedField' EJson_String JsonObject "connectionToken" = false →
  ∃ this' Trace,
    Handler InRequest (Some Response) bConnectedSuccessfully this
    = Some (this', Trace)
    ∧ ConnectionId this' = ConnectionId this
    ∧ ConstructsTransport Trace = true.
Proof.
  intros Hcode Hparse Hpass Hid Htoken.
  rewrite (Handler_passes _ _ _ _ _ _ _ _ Hcode Hparse Hpass).
  rewrite exec_StoreIdAndStart_full.
  eexists _, _. split; [reflexivity |].
  simpl. unfold StoredId. rewrite Hid, Htoken. split; reflexivity.
Qed.

(** X7: when a response is validated and the WebSockets module has no
    socket to give, the handler logs it and attaches and connects
    nothing; the socket handle of the object is null afterwards, also
    when it held a socket before, the identifier of the response is
    stored all the same, and a [Send] that follows is only logged. *)
Theorem failed_start_leaves_no_socket
    (InRequest : TSharedPtr FHttpRequest) (Response : FHttpResponse)
    (bConnectedSuccessfully : bool) (JsonObject : FJsonObject)
    (this : FConnection) :
  GetResponseCode Response = 200%Z →
  Deserialize (GetContentAsString Response) = Some JsonObject →
  PassesValidation FStringEq JsonObject = true →
  CreateWebSocket ("ws://" +:+ Host this) "" (Headers this) = None →
  ∃ this',
    Handler InRequest (Some Response) bConnectedSuccessfully this
    = Some (this',
            [CreateWebSocketCall ("ws://" +:+ Host this) ""
                                 (Headers this);
             Log Error "Cannot start websocket." []])
    ∧ Connection this' = None
    ∧ ConnectionId this' = StoredId FStringEq JsonObject this
    ∧ ∀ Data,
        exec (Send Data) this'
        = (this',
           [Log Error "Cannot send data to non connected websocket."
                []]).
Proof.
  intros Hcode Hparse Hpass Hnull.
  rewrite (Handler_passes _ _ _ _ _ _ _ _ Hcode Hparse Hpass).
  rewrite exec_StoreIdAndStart_full, Hnull.
  eexists. split; [reflexivity |].
  split; [reflexivity |]. split; [reflexivity |].
  intros Data. rewrite exec_Send. reflexivity.
Qed.

(** X8: when a response is validated and the module gives a socket, the
    handler keeps it as its handle, and in its trace every one of the
    four events has its lambda attached before [Connect] is called on
    the socket, not after. *)
Theorem lambdas_attached_before_connect
    (InRequest : TSharedPtr FHttpRequest) (Response : FHttpResponse)
    (bConnectedSuccessfully : bool) (JsonObject : FJsonObject)
    (Socket : IWebSocket) (this : FConnection) :
  GetResponseCode Response = 200%Z →
  Deserialize (GetContentAsString Response) = Some JsonObject →
  PassesValidation FStringEq JsonObject = true →
  CreateWebSocket ("ws://" +:+ Host this) "" (Headers this)
  = Some Socket →
  ∃ this' Trace,
    Handler InRequest (Some Response) bConnectedSuccessfully this
    = Some (this', Trace)
    ∧ Connection this' = Some Socket
    ∧ ∀ Event,
        ∃ Before After,
          Trace = Before ++ AddLambda Socket Event :: After
          ∧ In (SocketConnect Socket) After
          ∧ ¬ In (SocketConnect Socket) Before.
Proof.
  intros Hcode Hparse Hpass Hsocket.
  rewrite (Handler_passes _ _ _ _ _ _ _ _ Hcode Hparse Hpass).
  rewrite exec_StoreIdAndStart_full, Hsocket.
  eexists _, _. split; [reflexivity |]. split; [reflexivity |].
  set (Create :=
         CreateWebSocketCall ("ws://" +:+ Host this) "" (Headers this)).
  intros [].
  - exists [Create], [AddLambda Socket EvConnectionError;
                      AddLambda Socket EvClosed;
                      AddLambda Socket EvMessage; SocketConnect Socket].
    split; [reflexivity |]. split; [simpl; tauto |].
    simpl. intros [H | []]. discriminate H.
  - exists [Create; AddLambda Socket EvConnected],
           [AddLambda Socket EvClosed;
            AddLambda Socket EvMessage; SocketConnect Socket].
    split; [reflexivity |]. split; [simpl; tauto |].
    simpl. intros [H | [H | []]]; discriminate H.
  - exists [Create; AddLambda Socket EvConnected;
            AddLambda Socket EvConnectionError],
           [AddLambda Socket EvMessage; SocketConnect Socket].
    split; [reflexivity |]. split; [simpl; tauto |].
    simpl. intros [H | [H | [H | []]]]; discriminate H.
  - exists [Create; AddLambda Socket EvConnected;
            AddLambda Socket EvConnectionError;
            AddLambda Socket EvClosed],
           [SocketConnect Socket].
    split; [reflexivity |]. split; [simpl; tauto |].
    simpl. intros [H | [H | [H | [H | []]]]]; discriminate H.
Qed.

(** X9: whatever the response, the handler makes no HTTP request, sends
    or closes nothing on any socket and broadcasts nothing: its trace
    holds only log lines, the request for a socket, the four lambdas
    and [Connect].  In particular a socket the object held before is
    not closed when the handle is overwritten. *)
Theorem handler_only_starts (InRequest : TSharedPtr FHttpRequest)
    (InResponse : TSharedPtr FHttpResponse)
    (bConnectedSuccessfully : bool) (this this' : FConnection)
    (Trace : list Effect) :
  Handler InRequest InResponse bConnectedSuccessfully this
  = Some (this', Trace) →
  forallb IsStartEffect Trace = true.
Proof.
  destruct InResponse as [Response |]; [| discriminate].
  intros Hrun.
  destruct (Handler_cases InRequest Response bConnectedSuccessfully this)
    as [(_ & Trace' & Hrun' & Hquiet & _)
       | (JsonObject & _ & _ & _ & Hrun')].
  - rewrite Hrun' in Hrun. injection Hrun as <- <-.
    apply only_logs_are_start_effects. exact Hquiet.
  - rewrite exec_StoreIdAndStart_full in Hrun'.
    rewrite Hrun' in Hrun. injection Hrun as <- <-.
    destruct (CreateWebSocket _ _ _); reflexivity.
Qed.

End HandlerFacts.

(** ** The compatibility loops as a function of the array *)

Section CompatibilityLoop.

Variable FStringEq : string → string → bool.

Lemma some_entry_advertises_app
    (Left Right : list (TSharedPtr FJsonValue)) :
  (∃ Entry, Entry ∈ Left ++ Right
            ∧ AdvertisesWebSocketsText FStringEq Entry)
  ↔ (∃ Entry, Entry ∈ Left ∧ AdvertisesWebSocketsText FStringEq Entry)
    ∨ (∃ Entry, Entry ∈ Right
                ∧ AdvertisesWebSocketsText FStringEq Entry).
Proof.
  split.
  - intros (Entry & Hin & Hadv). apply elem_of_app in Hin as [Hin | Hin];
      [left | right]; exists Entry; split; assumption.
  - intros [(Entry & Hin & Hadv) | (Entry & Hin & Hadv)];
      exists Entry; (split; [apply elem_of_app; auto | exact Hadv]).
Qed.

(** X10: the flag is never lowered, and the loop over two arrays joined
    raises it when the loop over one of them does: the outcome on an
    array is the disjunction of the outcomes on its parts. *)
Theorem ScanTransports_app (Left Right : list (TSharedPtr FJsonValue))
    (bIsCompatible : bool) :
  ScanTransports FStringEq (Left ++ Right) bIsCompatible
  = bIsCompatible
    || ScanTransports FStringEq Left false
    || ScanTransports FStringEq Right false.
Proof.
  apply Bool.eq_iff_eq_true.
  rewrite !orb_true_iff, !ScanTransports_true, some_entry_advertises_app.
  split.
  - intros [Hb | [Hl | Hr]]; auto.
  - intros [[Hb | [Hf | Hl]] | [Hf | Hr]]; auto; discriminate.
Qed.

(** X11: the order of the entries of [availableTransports] does not
    matter to the outcome of the loop. *)
Theorem ScanTransports_permutation
    (Transports Reordered : list (TSharedPtr FJsonValue))
    (bIsCompatible : bool) :
  Permutation Transports Reordered →
  ScanTransports FStringEq Transports bIsCompatible
  = ScanTransports FStringEq Reordered bIsCompatible.
Proof.
  intros Hperm. apply Bool.eq_iff_eq_true.
  rewrite !ScanTransports_true.
  split; (intros [Hb | (Entry & Hin & Hadv)]; [auto |]);
    right; exists Entry; (split; [| exact Hadv]);
    apply list_elem_of_In; apply list_elem_of_In in Hin.
  - apply (Permutation_in _ Hperm Hin).
  - apply (Permutation_in _ (Permutation_sym Hperm) Hin).
Qed.

(** X12: entries that are null pointers or are not objects are passed
    over: the loop gives the same outcome on the array with those
    entries taken out. *)
Theorem ScanTransports_skips_non_objects
    (Transports : list (TSharedPtr FJsonValue)) (bIsCompatible : bool) :
  ScanTransports FStringEq (List.filter IsObjectEntry Transports)
                 bIsCompatible
  = ScanTransports FStringEq Transports bIsCompatible.
Proof.
  apply Bool.eq_iff_eq_true. rewrite !ScanTransports_true.
  split; (intros [Hb | (Entry & Hin & Hadv)]; [auto |]);
    right; exists Entry; (split; [| exact Hadv]);
    apply list_elem_of_In; apply list_elem_of_In in Hin.
  - apply filter_In in Hin as [Hin _]. exact Hin.
  - apply filter_In. split; [exact Hin |].
    destruct Hadv as (Obj & Name & Formats & -> & _). reflexivity.
Qed.

End CompatibilityLoop.

(** ** The lambdas, [Close] and [IsConnected] *)

Lemma exec_OnSocketSignal (Signal : FWebSocketSignal)
    (this : FConnection) :
  exec (OnSocketSignal Signal) this
  = (this,
     match Signal with
     | SigConnectionError ErrString =>
         [Log Warning "Websocket err: %s" [ArgString ErrString];
          Broadcast Signal]
     | _ => [Broadcast Signal]
     end).
Proof. destruct Signal; reflexivity. Qed.

Lemma exec_then (First Second : Action unit) (this : FConnection) :
  exec (First;; Second) this
  = (fst (exec Second (fst (exec First this))),
     snd (exec First this)
     ++ snd (exec Second (fst (exec First this)))).
Proof.
  step_action. destruct (First this) as [[[] this1] Trace1]. simpl.
  destruct (Second this1) as [[[] this2] Trace2]. reflexivity.
Qed.


(** X14: [Close] passes code and reason to the socket and keeps the
    handle: the object is as it was, and a [Send] after a [Close] still
    goes to the same socket. *)
Theorem Close_keeps_handle (Code : Z) (Reason Data : string)
    (Socket : IWebSocket) (this : FConnection) :
  Connection this = Some Socket →
  exec (Close Code Reason;; Send Data) this
  = (this, [SocketClose Socket Code Reason; SocketSend Socket Data]).
Proof.
  intros Hsocket.
  rewrite exec_then, exec_Close. simpl.
  rewrite exec_Send, Hsocket. reflexivity.
Qed.

(** X15: when [IsConnected] answers true there is a socket, it reports
    itself connected, and [Send] and [Close] both reach it. *)
Theorem IsConnected_true_reaches_socket
    (SocketIsConnected : IWebSocket → bool) (Data : string) (Code : Z)
    (Reason : string) (this : FConnection) :
  IsConnected SocketIsConnected this = true →
  ∃ Socket,
    Connection this = Some Socket
    ∧ SocketIsConnected Socket = true
    ∧ exec (Send Data) this = (this, [SocketSend Socket Data])
    ∧ exec (Close Code Reason) this
      = (this, [SocketClose Socket Code Reason]).
Proof.
  unfold IsConnected. rewrite exec_Send, exec_Close.
  destruct (Connection this) as [Socket |]; [| discriminate].
  simpl. intros Hup. exists Socket. repeat split. exact Hup.
Qed.

(** ** Sequences of calls *)

Lemma only_logs_no_request_no_socket (Trace : list Effect) :
  ExternalCalls Trace = [] →
  List.filter IsProcessRequest Trace = []
  ∧ ∀ e, In e Trace → SocketTarget e = None.
Proof.
  unfold ExternalCalls.
  induction Trace as [| e Trace IH]; [split; [reflexivity | intros e []] |].
  simpl. destruct e; simpl; try discriminate.
  intros H. destruct (IH H) as [Hreq Hsock].
  split; [exact Hreq |]. intros e [<- | Hin]; [reflexivity | auto].
Qed.

Lemma relay_effects_inert (Trace : list Effect) :
  forallb IsRelayEffect Trace = true →
  ConstructsTransport Trace = false
  ∧ List.filter IsProcessRequest Trace = []
  ∧ ∀ e, In e Trace → SocketTarget e = None.
Proof.
  unfold ConstructsTransport.
  induction Trace as [| e Trace IH]; simpl.
  - intros _. repeat split. intros e [].
  - intros H. apply andb_true_iff in H as [He H].
    destruct (IH H) as (Hcons & Hreq & Hsock).
    destruct e; try discriminate He; simpl;
      (repeat split; [exact Hcons | exact Hreq |]);
      intros e [<- | Hin]; auto.
Qed.

Lemma exec_Repeated_signal (Times : nat) (Signal : FWebSocketSignal)
    (this : FConnection) :
  fst (exec (Repeated Times (OnSocketSignal Signal)) this) = this
  ∧ forallb IsRelayEffect
      (snd (exec (Repeated Times (OnSocketSignal Signal)) this))
    = true.
Proof.
  induction Times as [| Times [IHstate IHtrace]]; [split; reflexivity |].
  simpl Repeated. rewrite exec_then, exec_OnSocketSignal. simpl.
  split; [exact IHstate |].
  rewrite forallb_app, IHtrace. destruct Signal; reflexivity.
Qed.

Lemma SocketsRequested_app (Before After : list Effect) :
  SocketsRequested (Before ++ After)
  = (SocketsRequested Before + SocketsRequested After)%nat.
Proof.
  unfold SocketsRequested. rewrite List.filter_app, length_app.
  reflexivity.
Qed.

Lemma SocketsRequested_none (Trace : list Effect) :
  ConstructsTransport Trace = false → SocketsRequested Trace = 0%nat.
Proof.
  unfold ConstructsTransport, SocketsRequested.
  induction Trace as [| e Trace IH]; [reflexivity |].
  simpl. destruct (IsCreateWebSocket e); [discriminate | exact IH].
Qed.

Section SessionFacts.

Variable FStringEq : string → string → bool.
Variable Deserialize : string → option FJsonObject.
Variable Module :
  nat → string → string → gmap string string → TSharedPtr IWebSocket.

Local Abbreviation RunCall' := (RunCall FStringEq Deserialize Module).
Local Abbreviation RunCallsFrom' :=
  (RunCallsFrom FStringEq Deserialize Module).
Local Abbreviation RunCalls' := (RunCalls FStringEq Deserialize Module).

(** What one call can do: either it leaves the object as it was, asks
    for no socket and touches at most the socket in hand, or it is a
    validated response, which asks the module for one socket and makes
    its answer to that request the new handle. *)
Lemma RunCall_inv (Before : list Effect) (Call : FCall)
    (this this' : FConnection) (Trace : list Effect) :
  RunCall' Before Call this = Some (this', Trace) →
  (this' = this
   ∧ ConstructsTransport Trace = false
   ∧ length (List.filter IsProcessRequest Trace)
     = (if IsCallConnect Call then 1 else 0)%nat
   ∧ ∀ e Socket, In e Trace → SocketTarget e = Some Socket →
                 Connection this = Some Socket)
  ∨ (Host this' = Host this
     ∧ Headers this' = Headers this
     ∧ Connection this'
       = Module (SocketsRequested Before) ("ws://" +:+ Host this) ""
                (Headers this)
     ∧ ConstructsTransport Trace = true
     ∧ (∃ Tail,
          Trace
          = CreateWebSocketCall ("ws://" +:+ Host this) "" (Headers this)
            :: Tail
          ∧ ConstructsTransport Tail = false)
     ∧ IsCallConnect Call = false
     ∧ List.filter IsProcessRequest Trace = []
     ∧ ∀ e Socket, In e Trace → SocketTarget e = Some Socket →
                   Module (SocketsRequested Before)
                          ("ws://" +:+ Host this) "" (Headers this)
                   = Some Socket).
Proof.
  destruct Call as [| Data | Code Reason | InRequest [Response |] b
                    | Source Signal]; unfold RunCall; intros H.
  - rewrite exec_Connect in H. injection H as <- <-. left.
    repeat split. intros e Socket [<- | []]. discriminate.
  - rewrite exec_Send in H. injection H as <- <-. left.
    destruct (Connection this) as [S |]; repeat split;
      intros e Socket [<- | []]; simpl; congruence.
  - rewrite exec_Close in H. injection H as <- <-. left.
    destruct (Connection this) as [S |]; repeat split;
      intros e Socket [<- | []]; simpl; congruence.
  - set (Factory := Module (SocketsRequested Before)) in *.
    destruct (Handler_cases FStringEq Deserialize Factory
                InRequest Response b this)
      as [(_ & Trace' & Hrun & Hquiet & _)
         | (JsonObject & _ & _ & _ & Hrun)].
    + rewrite Hrun in H. injection H as <- <-. left.
      destruct (only_logs_no_request_no_socket _ Hquiet) as [Hreq Hsock].
      split; [reflexivity |].
      split; [apply no_external_call_no_transport; exact Hquiet |].
      split; [rewrite Hreq; reflexivity |].
      intros e Socket Hin Htarget. rewrite (Hsock e Hin) in Htarget.
      discriminate Htarget.
    + rewrite exec_StoreIdAndStart_full in Hrun.
      rewrite Hrun in H. injection H as <- <-. right.
      split; [reflexivity |]. split; [reflexivity |].
      split; [reflexivity |]. split; [reflexivity |].
      split; [eexists; split; [reflexivity |];
              destruct (Factory _ _ _); reflexivity |].
      split; [reflexivity |].
      split; [destruct (Factory _ _ _); reflexivity |].
      intros e Socket Hin Htarget. simpl in Hin.
      destruct (Factory ("ws://" +:+ Host this) "" (Headers this))
        as [S |]; simpl in Hin.
      * destruct Hin as [<- | [<- | [<- | [<- | [<- | [<- | []]]]]]];
          simpl in Htarget; congruence.
      * destruct Hin as [<- | [<- | []]]; discriminate Htarget.
  - discriminate H.
  - destruct (exec_Repeated_signal
                (AttachedLambdas Before Source (EventOf Signal))
                Signal this) as [Hstate Hrelay].
    destruct (exec _ this) as [this1 Trace1]. simpl in Hstate, Hrelay.
    injection H as <- <-. left.
    destruct (relay_effects_inert _ Hrelay) as (Hcons & Hreq & Hsock).
    split; [exact Hstate |]. split; [exact Hcons |].
    split; [rewrite Hreq; reflexivity |].
    intros e Socket Hin Htarget. rewrite (Hsock e Hin) in Htarget.
    discriminate Htarget.
Qed.

Lemma RunCallsFrom_cons (Before : list Effect) (Call : FCall)
    (Rest : list FCall) (this this' : FConnection)
    (Trace : list Effect) :
  RunCallsFrom' Before (Call :: Rest) this = Some (this', Trace) →
  ∃ this1 Trace1 Trace2,
    RunCall' Before Call this = Some (this1, Trace1)
    ∧ RunCallsFrom' (Before ++ Trace1) Rest this1 = Some (this', Trace2)
    ∧ Trace = Trace1 ++ Trace2.
Proof.
  simpl.
  destruct (RunCall' Before Call this) as [[this1 Trace1] |] eqn:Hcall;
    [| discriminate].
  destruct (RunCallsFrom' (Before ++ Trace1) Rest this1)
    as [[this2 Trace2] |] eqn:Hrest; [| discriminate].
  intros H. injection H as <- <-.
  exists this1, Trace1, Trace2. repeat split. exact Hrest.
Qed.

Lemma no_request_in_prefix (Pre Post : list Effect) (e : Effect) :
  ConstructsTransport (Pre ++ e :: Post) = false →
  SocketsRequested Pre = 0%nat.
Proof.
  unfold ConstructsTransport. rewrite existsb_app.
  intros H. apply orb_false_iff in H as [H _].
  apply SocketsRequested_none. exact H.
Qed.

(** Where an element of two joined traces lies. *)
Lemma split_in_joined (Pre Post First Second : list Effect)
    (e : Effect) :
  First ++ Second = Pre ++ e :: Post →
  (∃ Between, First = Pre ++ e :: Between ∧ Post = Between ++ Second)
  ∨ (∃ Between, Pre = First ++ Between ∧ Second = Between ++ e :: Post).
Proof.
  revert Pre. induction First as [| x First IH]; intros Pre H.
  - right. exists Pre. split; [reflexivity | exact H].
  - destruct Pre as [| y Pre]; simpl in H; injection H as -> H.
    + left. exists First. split; [reflexivity | symmetry; exact H].
    + destruct (IH Pre H) as [(B & -> & ->) | (B & -> & ->)].
      * left. exists B. split; reflexivity.
      * right. exists B. split; reflexivity.
Qed.

(** Over the calls, the handle stays what the most recent request was
    answered with, and each call on a socket is on the socket the
    request before it was answered with. *)
Lemma RunCallsFrom_sockets (Calls : list FCall) (Before : list Effect)
    (this this' : FConnection) (Trace : list Effect) :
  HandleIsLatest Module Before this →
  RunCallsFrom' Before Calls this = Some (this', Trace) →
  Host this' = Host this
  ∧ Headers this' = Headers this
  ∧ HandleIsLatest Module (Before ++ Trace) this'
  ∧ ∀ Pre e Post Socket,
      Trace = Pre ++ e :: Post → SocketTarget e = Some Socket →
      ∃ Earlier,
        SocketsRequested (Before ++ Pre) = S Earlier
        ∧ Module Earlier ("ws://" +:+ Host this) "" (Headers this)
          = Some Socket.
Proof.
  revert Before this Trace.
  induction Calls as [| Call Rest IH]; intros Before this Trace Hinv Hrun.
  - injection Hrun as <- <-. rewrite app_nil_r.
    repeat split; [exact Hinv |].
    intros Pre e Post Socket Hsplit. destruct Pre; discriminate Hsplit.
  - apply RunCallsFrom_cons in Hrun
      as (this1 & Trace1 & Trace2 & Hcall & Hrest & ->).
    apply RunCall_inv in Hcall
      as [(-> & Hno & _ & Hhere)
         | (Hhost & Hheaders & Hnew & _ & (Tail & -> & Hno) & _ & _
            & Hhere)].
    + assert (Hinv1 : HandleIsLatest Module (Before ++ Trace1) this).
      { unfold HandleIsLatest in *.
        rewrite SocketsRequested_app, (SocketsRequested_none _ Hno),
          Nat.add_0_r. exact Hinv. }
      destruct (IH _ _ _ Hinv1 Hrest)
        as (Hhost' & Hheaders' & Hinv' & Hthere).
      rewrite <- app_assoc in Hinv'.
      repeat split; try assumption.
      intros Pre e Post Socket Hsplit Htarget.
      destruct (split_in_joined _ _ _ _ _ Hsplit)
        as [(Between & -> & ->) | (Between & -> & ->)].
      * assert (Hin : In e (Pre ++ e :: Between))
          by (apply in_or_app; right; left; reflexivity).
        specialize (Hhere e Socket Hin Htarget).
        rewrite SocketsRequested_app,
          (no_request_in_prefix _ _ _ Hno), Nat.add_0_r.
        unfold HandleIsLatest in Hinv.
        destruct (SocketsRequested Before) as [| Earlier];
          [congruence |].
        exists Earlier. split; [reflexivity | congruence].
      * rewrite app_assoc. exact (Hthere _ _ _ _ eq_refl Htarget).
    + set (Create := CreateWebSocketCall ("ws://" +:+ Host this) ""
                       (Headers this)) in *.
      assert (Hinv1 :
        HandleIsLatest Module (Before ++ Create :: Tail) this1).
      { unfold HandleIsLatest.
        rewrite SocketsRequested_app.
        change (SocketsRequested (Create :: Tail))
          with (S (SocketsRequested Tail)).
        rewrite (SocketsRequested_none _ Hno), Nat.add_1_r.
        rewrite Hhost, Hheaders. exact Hnew. }
      destruct (IH _ _ _ Hinv1 Hrest)
        as (Hhost' & Hheaders' & Hinv' & Hthere).
      rewrite <- app_assoc in Hinv'.
      split; [congruence |]. split; [congruence |].
      split; [exact Hinv' |].
      intros Pre e Post Socket Hsplit Htarget.
      destruct (split_in_joined _ _ _ _ _ Hsplit)
        as [(Between & Hfirst & ->) | (Between & -> & ->)].
      * destruct Pre as [| p Pre]; simpl in Hfirst;
          injection Hfirst as <- Htail.
        { discriminate Htarget. }
        assert (Hin : In e (Create :: Tail))
          by (right; rewrite Htail; apply in_or_app; right; left;
              reflexivity).
        exists (SocketsRequested Before). split.
        -- rewrite SocketsRequested_app.
           change (SocketsRequested (Create :: Pre))
             with (S (SocketsRequested Pre)).
           rewrite Htail in Hno.
           rewrite (no_request_in_prefix _ _ _ Hno). lia.
        -- exact (Hhere e Socket Hin Htarget).
      * rewrite app_assoc.
        destruct (Hthere _ _ _ _ eq_refl Htarget) as (Earlier & Hc & Hm).
        exists Earlier. split; [exact Hc |].
        rewrite <- Hhost, <- Hheaders. exact Hm.
Qed.

(** X16: no sequence of calls changes the host or the headers of the
    object. *)
Theorem host_and_headers_never_change (Calls : list FCall)
    (this this' : FConnection) (Trace : list Effect) :
  RunCalls' Calls this = Some (this', Trace) →
  Host this' = Host this ∧ Headers this' = Headers this.
Proof.
  unfold RunCalls. generalize (@nil Effect) as Before.
  revert this Trace.
  induction Calls as [| Call Rest IH]; intros this Trace Before Hrun.
  - injection Hrun as <- <-. split; reflexivity.
  - apply RunCallsFrom_cons in Hrun
      as (this1 & Trace1 & Trace2 & Hcall & Hrest & ->).
    destruct (IH _ _ _ Hrest) as [Hhost Hheaders].
    apply RunCall_inv in Hcall
      as [(-> & _) | (Hhost1 & Hheaders1 & _)];
      [split; assumption | split; congruence].
Qed.

(** X17: over any sequence of calls the object makes as many HTTP
    requests as it received [Connect] calls: a second [Connect] sends a
    second request, and no response, whether it fails, asks for a
    redirect or succeeds, makes the object send one of its own. *)
Theorem one_request_per_Connect (Calls : list FCall)
    (this this' : FConnection) (Trace : list Effect) :
  RunCalls' Calls this = Some (this', Trace) →
  length (List.filter IsProcessRequest Trace)
  = length (List.filter IsCallConnect Calls).
Proof.
  unfold RunCalls. generalize (@nil Effect) as Before.
  revert this Trace.
  induction Calls as [| Call Rest IH]; intros this Trace Before Hrun.
  - injection Hrun as <- <-. reflexivity.
  - apply RunCallsFrom_cons in Hrun
      as (this1 & Trace1 & Trace2 & Hcall & Hrest & ->).
    rewrite List.filter_app, length_app, (IH _ _ _ Hrest).
    apply RunCall_inv in Hcall
      as [(_ & _ & Hcount & _)
         | (_ & _ & _ & _ & _ & Hnot & Hnone & _)].
    + rewrite Hcount. simpl. destruct (IsCallConnect Call); reflexivity.
    + rewrite Hnone. simpl. rewrite Hnot. reflexivity.
Qed.

(** X18: starting from a constructed object, whatever the calls and
    whatever the WebSockets module answers to each request, the socket
    handle is null as long as no socket was requested and afterwards
    the answer to the most recent request; and every lambda, [Connect],
    [Send] and [Close] in the trace is on the socket the module
    returned to the most recent request made before it, for
    ws://{host} and the headers of the object. *)
Theorem only_the_module_socket_is_used (InHost : string)
    (InHeaders : gmap string string) (Calls : list FCall)
    (this' : FConnection) (Trace : list Effect) :
  RunCalls' Calls (FConnection_new InHost InHeaders)
  = Some (this', Trace) →
  match SocketsRequested Trace with
  | O => Connection this' = None
  | S Earlier =>
      Connection this' = Module Earlier ("ws://" +:+ InHost) "" InHeaders
  end
  ∧ ∀ Pre e Post Socket,
      Trace = Pre ++ e :: Post → SocketTarget e = Some Socket →
      ∃ Earlier,
        SocketsRequested Pre = S Earlier
        ∧ Module Earlier ("ws://" +:+ InHost) "" InHeaders = Some Socket.
Proof.
  unfold RunCalls. intros Hrun.
  assert (Hstart :
    HandleIsLatest Module [] (FConnection_new InHost InHeaders))
    by reflexivity.
  destruct (RunCallsFrom_sockets Calls [] _ _ _ Hstart Hrun)
    as (Hhost & Hheaders & Hlatest & Htargets).
  simpl in Hhost, Hheaders, Hlatest, Htargets. split.
  - unfold HandleIsLatest in Hlatest.
    destruct (SocketsRequested Trace) as [| Earlier]; [exact Hlatest |].
    rewrite Hhost, Hheaders in Hlatest. exact Hlatest.
  - exact Htargets.
Qed.

(** X19: starting from a constructed object, as long as no response
    has made the handler ask for a socket, the object has not changed,
    no call has been made on any socket, whatever was sent or closed,
    and [IsConnected] answers false. *)
Theorem nothing_reaches_a_socket_before_start (InHost : string)
    (InHeaders : gmap string string) (Calls : list FCall)
    (this' : FConnection) (Trace : list Effect) :
  RunCalls' Calls (FConnection_new InHost InHeaders)
  = Some (this', Trace) →
  ConstructsTransport Trace = false →
  this' = FConnection_new InHost InHeaders
  ∧ (∀ e, In e Trace → SocketTarget e = None)
  ∧ ∀ SocketIsConnected, IsConnected SocketIsConnected this' = false.
Proof.
  unfold RunCalls. generalize (@nil Effect) as Before.
  intros Before Hrun Hno.
  assert (Hstays :
    this' = FConnection_new InHost InHeaders
    ∧ ∀ e, In e Trace → SocketTarget e = None).
  { revert Before Trace Hrun Hno.
    induction Calls as [| Call Rest IH]; intros Before Trace Hrun Hno.
    - injection Hrun as <- <-. split; [reflexivity | intros e []].
    - apply RunCallsFrom_cons in Hrun
        as (this1 & Trace1 & Trace2 & Hcall & Hrest & ->).
      unfold ConstructsTransport in Hno. rewrite existsb_app in Hno.
      apply orb_false_iff in Hno as [Hno1 Hno2].
      apply RunCall_inv in Hcall
        as [(-> & _ & _ & Hhere) | (_ & _ & _ & Hyes & _)];
        [| unfold ConstructsTransport in Hyes; congruence].
      destruct (IH _ _ Hrest Hno2) as [-> Hthere].
      split; [reflexivity |].
      intros e Hin. apply in_app_or in Hin as [Hin | Hin]; [| auto].
      destruct (SocketTarget e) as [S |] eqn:Htarget; [| reflexivity].
      specialize (Hhere e S Hin Htarget). discriminate Hhere. }
  destruct Hstays as [-> Hnone].
  split; [reflexivity |]. split; [exact Hnone |]. reflexivity.
Qed.

End SessionFacts.

(** ** The further theorems at sample inputs *)

Example run_SampleCalls :
  RunCalls EqualsIgnoreCase SampleReader FreshSocketModule SampleCalls
    SampleConnection
  = Some
      ({| Host := "localhost:5000";
          Headers := SampleHeaders;
          ConnectionId := "tok456";
          Connection := Some 2%nat |},
       [ProcessRequest
          {| Verb := "POST";
             URL := "http://localhost:5000/negotiate?negotiateVersion=1";
             RequestHeaders := ∅;
             Payload := "";
             OnProcessRequestComplete := BoundTo_OnNegotiateResponse |};
        Log Error "Cannot send data to non connected websocket." [];
        Log Error "Detected a connection attempt to an ASP.NET SignalR Server. This client only supports connecting to an ASP.NET Core SignalR Server. See https://aka.ms/signalr-core-differences for details." [];
        ProcessRequest
          {| Verb := "POST";
             URL := "http://localhost:5000/negotiate?negotiateVersion=1";
             RequestHeaders := ∅;
             Payload := "";
             OnProcessRequestComplete := BoundTo_OnNegotiateResponse |};
        CreateWebSocketCall "ws://localhost:5000" "" SampleHeaders;
        AddLambda 1%nat EvConnected;
        AddLambda 1%nat EvConnectionError;
        AddLambda 1%nat EvClosed;
        AddLambda 1%nat EvMessage;
        SocketConnect 1%nat;
        SocketSend 1%nat "hello";
        Broadcast (SigMessage "world");
        SocketClose 1%nat 1000 "normal";
        SocketSend 1%nat "late";
        ProcessRequest
          {| Verb := "POST";
             URL := "http://localhost:5000/negotiate?negotiateVersion=1";
             RequestHeaders := ∅;
             Payload := "";
             OnProcessRequestComplete := BoundTo_OnNegotiateResponse |};
        CreateWebSocketCall "ws://localhost:5000" "" SampleHeaders;
        AddLambda 2%nat EvConnected;
        AddLambda 2%nat EvConnectionError;
        AddLambda 2%nat EvClosed;
        AddLambda 2%nat EvMessage;
        SocketConnect 2%nat;
        SocketSend 2%nat "again";
        Broadcast (SigMessage "still here")]).
Proof. reflexivity. Qed.

(** A module that hands out the same socket twice has two lambdas on
    each of its events, and one message is then broadcast twice. *)
Example run_same_socket_twice :
  RunCalls EqualsIgnoreCase SampleReader (λ _, SampleModule)
    [CallOnNegotiateResponse None (Some (Ok200 ScenarioA_Body)) true;
     CallOnNegotiateResponse None (Some (Ok200 ScenarioA_Body)) true;
     CallSocketSignal 1%nat (SigMessage "once")]
    SampleConnection
  = Some
      ({| Host := "localhost:5000";
          Headers := SampleHeaders;
          ConnectionId := "abc123";
          Connection := Some 1%nat |},
       [CreateWebSocketCall "ws://localhost:5000" "" SampleHeaders;
        AddLambda 1%nat EvConnected;
        AddLambda 1%nat EvConnectionError;
        AddLambda 1%nat EvClosed;
        AddLambda 1%nat EvMessage;
        SocketConnect 1%nat;
        CreateWebSocketCall "ws://localhost:5000" "" SampleHeaders;
        AddLambda 1%nat EvConnected;
        AddLambda 1%nat EvConnectionError;
        AddLambda 1%nat EvClosed;
        AddLambda 1%nat EvMessage;
        SocketConnect 1%nat;
        Broadcast (SigMessage "once");
        Broadcast (SigMessage "once")]).
Proof. reflexivity. Qed.

Lemma unreadable_body_aborts_witness :
  SampleReader (GetContentAsString (Ok200 "<html>")) = None
  ∧ OnNegotiateResponse EqualsIgnoreCase SampleReader SampleModule
      None (Some (Ok200 "<html>")) true SampleConnection
    = Some (SampleConnection,
            [Log Error "Cannot parse negotiate response: %s"
                 [ArgString "<html>"]]).
Proof.
  split; [reflexivity |].
  apply (unreadable_body_aborts EqualsIgnoreCase SampleReader
           SampleModule None (Ok200 "<html>") true SampleConnection);
    reflexivity.
Defined.

Lemma string_url_returns_silently_witness :
  Find EqualsIgnoreCase Redirect_Object "url"
  = Some (Some (FJsonValueString "http://other:5000/hub"))
  ∧ OnNegotiateResponse EqualsIgnoreCase SampleReader SampleModule
      None (Some (Ok200 Redirect_Body)) true SampleConnection
    = Some (SampleConnection, []).
Proof.
  split; [reflexivity |].
  apply (string_url_returns_silently EqualsIgnoreCase SampleReader
           SampleModule None (Ok200 Redirect_Body) true Redirect_Object
           "http://other:5000/hub" SampleConnection);
    reflexivity.
Defined.

Lemma no_socket_request_no_change_witness :
  OnNegotiateResponse EqualsIgnoreCase SampleReader SampleModule
    None (Some (Ok200 ScenarioD_Body)) true EstablishedConnection
  = Some (EstablishedConnection,
          [Log Error "The server does not support WebSockets which is currently the only transport supported by this client." []])
  ∧ EstablishedConnection = EstablishedConnection
  ∧ ExternalCalls
      [Log Error "The server does not support WebSockets which is currently the only transport supported by this client." []]
    = []
  ∧ (1 ≤ 1)%nat.
Proof.
  split; [reflexivity |].
  apply (no_socket_request_no_change EqualsIgnoreCase SampleReader
           SampleModule None (Ok200 ScenarioD_Body) true
           EstablishedConnection);
    reflexivity.
Defined.

Lemma empty_availableTransports_aborts_witness :
  Find EqualsIgnoreCase EmptyTransports_Object "availableTransports"
  = Some (Some (FJsonValueArray []))
  ∧ OnNegotiateResponse EqualsIgnoreCase EmptyTransportsReader
      SampleModule None (Some (Ok200 EmptyTransports_Body)) true
      SampleConnection
    = Some (SampleConnection,
            [Log Error "The server does not support WebSockets which is currently the only transport supported by this client." []]).
Proof.
  split; [reflexivity |].
  apply (empty_availableTransports_aborts EqualsIgnoreCase
           EmptyTransportsReader SampleModule None
           (Ok200 EmptyTransports_Body) true EmptyTransports_Object
           SampleConnection);
    reflexivity.
Defined.

Lemma identifier_kept_without_string_id_witness :
  HasTypedField EqualsIgnoreCase EJson_String TransportsNotArray_Object
    "connectionId" = false
  ∧ ∃ this' Trace,
      OnNegotiateResponse EqualsIgnoreCase SampleReader SampleModule
        None (Some (Ok200 TransportsNotArray_Body)) true
        EstablishedConnection
      = Some (this', Trace)
      ∧ ConnectionId this' = "old"
      ∧ ConstructsTransport Trace = true.
Proof.
  split; [reflexivity |].
  apply (identifier_kept_without_string_id EqualsIgnoreCase SampleReader
           SampleModule None (Ok200 TransportsNotArray_Body) true
           TransportsNotArray_Object EstablishedConnection);
    reflexivity.
Defined.

Lemma failed_start_leaves_no_socket_witness :
  Connection EstablishedConnection = Some 7%nat
  ∧ ∃ this',
      OnNegotiateResponse EqualsIgnoreCase SampleReader FailingModule
        None (Some (Ok200 ScenarioA_Body)) true EstablishedConnection
      = Some (this',
              [CreateWebSocketCall "ws://localhost:5000" "" SampleHeaders;
               Log Error "Cannot start websocket." []])
      ∧ Connection this' = None
      ∧ ConnectionId this' = "abc123".
Proof.
  split; [reflexivity |].
  destruct (failed_start_leaves_no_socket EqualsIgnoreCase SampleReader
              FailingModule None (Ok200 ScenarioA_Body) true
              ScenarioA_Object EstablishedConnection
              eq_refl eq_refl eq_refl eq_refl)
    as (this' & Hrun & Hnull & Hid & _).
  exists this'. repeat split; assumption.
Defined.

Lemma lambdas_attached_before_connect_witness :
  SampleModule "ws://localhost:5000" "" SampleHeaders = Some 1%nat
  ∧ ∃ this' Trace,
      OnNegotiateResponse EqualsIgnoreCase SampleReader SampleModule
        None (Some (Ok200 ScenarioA_Body)) true SampleConnection
      = Some (this', Trace)
      ∧ Connection this' = Some 1%nat
      ∧ ∃ Before After,
          Trace = Before ++ AddLambda 1%nat EvMessage :: After
          ∧ In (SocketConnect 1%nat) After
          ∧ ¬ In (SocketConnect 1%nat) Before.
Proof.
  split; [reflexivity |].
  destruct (lambdas_attached_before_connect EqualsIgnoreCase SampleReader
              SampleModule None (Ok200 ScenarioA_Body) true
              ScenarioA_Object 1%nat SampleConnection
              eq_refl eq_refl eq_refl eq_refl)
    as (this' & Trace & Hrun & Hsocket & Horder).
  exists this', Trace. repeat split; try assumption.
  exact (Horder EvMessage).
Defined.

(** A response that overwrites socket 7 does not close it. *)
Lemma handler_only_starts_witness :
  ∃ this' Trace,
    OnNegotiateResponse EqualsIgnoreCase SampleReader SampleModule
      None (Some (Ok200 ScenarioA_Body)) true EstablishedConnection
    = Some (this', Trace)
    ∧ Connection this' = Some 1%nat
    ∧ forallb IsStartEffect Trace = true.
Proof.
  eexists _, _. split; [reflexivity |]. split; [reflexivity |].
  eapply (handler_only_starts EqualsIgnoreCase SampleReader SampleModule
            None (Some (Ok200 ScenarioA_Body)) true
            EstablishedConnection).
  reflexivity.
Defined.

Lemma ScanTransports_permutation_witness :
  let Entry :=
    Some (FJsonValueObject
            [("transport", Some (FJsonValueString "WebSockets"));
             ("transferFormats",
              Some (FJsonValueArray [Some (FJsonValueString "Text")]))])
  in
  Permutation [None; Entry] [Entry; None]
  ∧ ScanTransports EqualsIgnoreCase [None; Entry] false
    = ScanTransports EqualsIgnoreCase [Entry; None] false.
Proof.
  intros Entry. split; [apply perm_swap |].
  apply (ScanTransports_permutation EqualsIgnoreCase
           [None; Entry] [Entry; None] false).
  apply perm_swap.
Defined.

Lemma Close_keeps_handle_witness :
  Connection PendingConnection = Some 1%nat
  ∧ exec (Close 1000 "normal";; Send "late") PendingConnection
    = (PendingConnection,
       [SocketClose 1%nat 1000 "normal"; SocketSend 1%nat "late"]).
Proof.
  split; [reflexivity |].
  apply (Close_keeps_handle 1000 "normal" "late" 1%nat PendingConnection).
  reflexivity.
Defined.

Lemma IsConnected_true_reaches_socket_witness :
  IsConnected (λ _, true) PendingConnection = true
  ∧ ∃ Socket,
      Connection PendingConnection = Some Socket
      ∧ (λ _ : IWebSocket, true) Socket = true
      ∧ exec (Send "hello") PendingConnection
        = (PendingConnection, [SocketSend Socket "hello"])
      ∧ exec (Close 1000 "normal") PendingConnection
        = (PendingConnection, [SocketClose Socket 1000 "normal"]).
Proof.
  split; [reflexivity |].
  apply (IsConnected_true_reaches_socket (λ _, true) "hello" 1000
           "normal" PendingConnection).
  reflexivity.
Defined.

Lemma host_and_headers_never_change_witness :
  ∃ this' Trace,
    RunCalls EqualsIgnoreCase SampleReader FreshSocketModule SampleCalls
      SampleConnection
    = Some (this', Trace)
    ∧ Host this' = "localhost:5000"
    ∧ Headers this' = SampleHeaders.
Proof.
  eexists _, _. split; [reflexivity |].
  eapply (host_and_headers_never_change EqualsIgnoreCase SampleReader
            FreshSocketModule SampleCalls SampleConnection).
  reflexivity.
Defined.

Lemma one_request_per_Connect_witness :
  ∃ this' Trace,
    RunCalls EqualsIgnoreCase SampleReader FreshSocketModule SampleCalls
      SampleConnection
    = Some (this', Trace)
    ∧ length (List.filter IsProcessRequest Trace) = 3%nat.
Proof.
  eexists _, _. split; [reflexivity |].
  eapply (one_request_per_Connect EqualsIgnoreCase SampleReader
            FreshSocketModule SampleCalls SampleConnection).
  reflexivity.
Defined.

(** After two sockets were requested the handle is the second one, and
    the [Send] of "again" is on it. *)
Lemma only_the_module_socket_is_used_witness :
  ∃ this' Trace,
    RunCalls EqualsIgnoreCase SampleReader FreshSocketModule SampleCalls
      (FConnection_new "localhost:5000" SampleHeaders)
    = Some (this', Trace)
    ∧ SocketsRequested Trace = 2%nat
    ∧ Connection this'
      = FreshSocketModule 1 "ws://localhost:5000" "" SampleHeaders
    ∧ ∀ Pre Post,
        Trace = Pre ++ SocketSend 2%nat "again" :: Post →
        ∃ Earlier,
          SocketsRequested Pre = S Earlier
          ∧ FreshSocketModule Earlier "ws://localhost:5000" ""
              SampleHeaders
            = Some 2%nat.
Proof.
  eexists _, _. split; [reflexivity |]. split; [reflexivity |].
  destruct (only_the_module_socket_is_used EqualsIgnoreCase SampleReader
              FreshSocketModule "localhost:5000" SampleHeaders
              SampleCalls _ _ eq_refl) as [Hhandle Htargets].
  split; [exact Hhandle |].
  intros Pre Post Hsplit.
  exact (Htargets Pre (SocketSend 2%nat "again") Post 2%nat Hsplit
           eq_refl).
Defined.

Lemma nothing_reaches_a_socket_before_start_witness :
  ∃ this' Trace,
    RunCalls EqualsIgnoreCase SampleReader FreshSocketModule
      [CallConnect;
       CallSend "early";
       CallOnNegotiateResponse None (Some (Ok200 ScenarioB_Body)) true;
       CallSocketSignal 1%nat (SigMessage "stranger");
       CallClose 1000 "bye"]
      (FConnection_new "localhost:5000" SampleHeaders)
    = Some (this', Trace)
    ∧ ConstructsTransport Trace = false
    ∧ this' = FConnection_new "localhost:5000" SampleHeaders
    ∧ (∀ e, In e Trace → SocketTarget e = None)
    ∧ ∀ SocketIsConnected, IsConnected SocketIsConnected this' = false.
Proof.
  eexists _, _. split; [reflexivity |]. split; [reflexivity |].
  eapply (nothing_reaches_a_socket_before_start EqualsIgnoreCase
            SampleReader FreshSocketModule "localhost:5000" SampleHeaders
            [CallConnect;
             CallSend "early";
             CallOnNegotiateResponse None (Some (Ok200 ScenarioB_Body))
               true;
             CallSocketSignal 1%nat (SigMessage "stranger");
             CallClose 1000 "bye"]);
    reflexivity.
Defined.
